(** * genmod: the command-line driver [scripts/run_genmod.py]

    A shallow embedding of the driver script of genmod and of the family used
    by [tests/test_recessive.py].  The script is effectful throughout (files,
    standard output, processes, early exits), so its functions are embedded
    in a state-and-exception monad over a small model of the process state.
    Code that the script calls but that lives in other packages (pysam,
    ped_parser, vcf_parser, genmod.utils) is taken as a record of outcomes,
    [Env]: every theorem holds for all such outcomes. *)

From stdpp Require Import gmap strings list fin_maps pretty.
From Stdlib Require Import ZArith Ascii.
From Stdlib Require String.

Local Open Scope Z_scope.

(** ** The fragment of the Python runtime the script relies on *)

Module Py.

(** Exceptions that reach the driver.  [SystemExit None] is what a bare
    [sys.exit()] raises; [LibraryError] stands for whatever an external
    collaborator raises that no handler of the script names. *)
Inductive exn : Type :=
| FileNotFoundError (path : string)
| IOError (msg : string)
| KeyError (msg : string)
| TypeError (msg : string)
| NameError (name : string)
| SystemExit (status : option Z)
| LibraryError (msg : string).

(** [except IOError] also catches [FileNotFoundError], its subclass;
    [except FileNotFoundError] catches nothing else. *)
Definition is_IOError (e : exn) : bool :=
  match e with
  | FileNotFoundError _ | IOError _ => true
  | _ => false
  end.

Definition is_FileNotFoundError (e : exn) : bool :=
  match e with
  | FileNotFoundError _ => true
  | _ => false
  end.

(** [str(e)] as printed by [print(e)]. *)
Definition str_exn (e : exn) : string :=
  match e with
  | FileNotFoundError p => "[Errno 2] No such file or directory: '" +:+ p +:+ "'"
  | IOError m | KeyError m | TypeError m | LibraryError m => m
  | NameError n => "name '" +:+ n +:+ "' is not defined"
  | SystemExit _ => ""
  end.

Inductive result (A : Type) : Type :=
| Ok (a : A)
| Raise (e : exn).
Arguments Ok {A} a.
Arguments Raise {A} e.

(** The values that travel in the [kwargs] dictionary of the script. *)
Inductive value : Type :=
| VNone
| VBool (b : bool)
| VStr (s : string)
| VObj.

(** Python truthiness. *)
Definition truthy (v : value) : bool :=
  match v with
  | VNone => false
  | VBool b => b
  | VStr s => negb (String.eqb s "")
  | VObj => true
  end.

(** A parameter that click leaves at [None] when the option is absent. *)
Definition of_path (o : option string) : value :=
  match o with
  | Some p => VStr p
  | None => VNone
  end.

(** [d.get(k, default)] *)
Definition dict_get (d : gmap string value) (k : string) (default : value) : value :=
  match d !! k with
  | Some v => v
  | None => default
  end.

Definition tab : string := String "009"%char "".
Definition newline : string := String "010"%char "".

(** [sep.join(l)] *)
Definition join (sep : string) (l : list string) : string := String.concat sep l.

(** [s.startswith('/')] and [s.endswith('/')] *)
Definition startswith_sep (s : string) : bool :=
  match s with
  | String c _ => Ascii.eqb c "/"%char
  | EmptyString => false
  end.

Fixpoint endswith_sep (s : string) : bool :=
  match s with
  | EmptyString => false
  | String c EmptyString => Ascii.eqb c "/"%char
  | String _ rest => endswith_sep rest
  end.

(** [os.path.join(a, b)] of posixpath, for two components. *)
Definition path_join (a b : string) : string :=
  if startswith_sep b then b
  else if String.eqb a "" || endswith_sep a then a +:+ b
  else a +:+ "/" +:+ b.

(** Exit status of the interpreter for the way the script ended: a normal
    return and a bare [sys.exit()] give 0, [sys.exit(n)] gives [n], an
    exception nobody caught prints a traceback and gives 1. *)
Definition exit_status {A} (r : result A) : Z :=
  match r with
  | Ok _ => 0
  | Raise (SystemExit None) => 0
  | Raise (SystemExit (Some n)) => n
  | Raise _ => 1
  end.

End Py.
Export Py.

(** ** Process state and the monad of the script *)

(** What the script can observe or change: the regular files it reads and
    writes, the scratch directories made by [mkdtemp], the lines printed on
    standard output, and the processes it has started. *)
Record State : Type := mkState {
  files : gmap string string;
  dirs : gset string;
  stdout : list string;
  consumers_started : nat;
  printer_started : bool
}.

Definition initial (fs : gmap string string) : State :=
  mkState fs ∅ [] 0 false.

Definition M (A : Type) : Type := State → result A * State.

Definition ret {A} (a : A) : M A := λ st, (Ok a, st).
Definition raise {A} (e : exn) : M A := λ st, (Raise e, st).
Definition bind {A B} (m : M A) (f : A → M B) : M B :=
  λ st, match m st with
        | (Ok a, st') => f a st'
        | (Raise e, st') => (Raise e, st')
        end.

Notation "x <- m ;; k" := (bind m (λ x, k))
  (at level 100, m at next level, right associativity).
Notation "m ;;; k" := (bind m (λ _, k))
  (at level 100, right associativity).

(** [try: m  except <handles>: h e] *)
Definition try_except {A} (m : M A) (handles : exn → bool) (h : exn → M A) : M A :=
  λ st, match m st with
        | (Raise e, st') => if handles e then h e st' else (Raise e, st')
        | r => r
        end.

Definition lift {A} (r : result A) : M A := λ st, (r, st).

Definition when (b : bool) (m : M unit) : M unit := if b then m else ret tt.

(** [for x in l: body x] *)
Fixpoint for_each {A} (l : list A) (body : A → M unit) : M unit :=
  match l with
  | [] => ret tt
  | x :: rest => body x ;;; for_each rest body
  end.

(** [print(line)] and [click.echo(line)] *)
Definition print (line : string) : M unit :=
  λ st, (Ok tt, mkState (files st) (dirs st) (stdout st ++ [line])
                        (consumers_started st) (printer_started st)).

(** [open(path, 'rb')] followed by reading the whole file. *)
Definition read_file (path : string) : M string :=
  λ st, match files st !! path with
        | Some c => (Ok c, st)
        | None => (Raise (FileNotFoundError path), st)
        end.

(** ** Data of the collaborators *)

(** [ped_parser.individual.Individual]: the constructor arguments used by
    the test suite.  [sex] is 1 (male) or 2 (female), [phenotype] is 1
    (unaffected) or 2 (affected); a parent id ["0"] marks a founder. *)
Record Individual : Type := mkIndividual {
  ind : string;
  family : string;
  mother : string;
  father : string;
  sex : Z;
  phenotype : Z
}.

(** [ped_parser.family.Family]: [individuals] is a dictionary from
    individual id to [Individual]; it is kept as its items in insertion
    order, which is the order [keys()] lists them in. *)
Record Family : Type := mkFamily {
  family_id : string;
  individuals : list (string * Individual)
}.

(** [d[k] = v] on a dictionary kept as its items: an existing key keeps its
    place, a new key goes last. *)
Fixpoint dict_set {V} (d : list (string * V)) (k : string) (v : V) : list (string * V) :=
  match d with
  | [] => [(k, v)]
  | (k', v') :: rest =>
      if String.eqb k' k then (k, v) :: rest else (k', v') :: dict_set rest k v
  end.

(** [family.add_individual(i)], as the test suite uses it. *)
Definition add_individual (f : Family) (i : Individual) : Family :=
  mkFamily (family_id f) (dict_set (individuals f) (ind i) i).

Definition individual_keys (f : Family) : list string := (individuals f).*1.

(** The header object of [vcf_parser] ([variant_parser.metadata]).  The
    script only calls [add_info] and [print_header] on it, so the header is
    the lines it was parsed from together with the [add_info] calls it has
    received, in order. *)
Record InfoLine : Type := mkInfo {
  info_id : string;
  info_number : string;
  info_type : string;
  info_description : string
}.

Record Header : Type := mkHeader {
  original : list string;
  added : list InfoLine
}.

Definition add_info (h : Header) (id number type description : string) : Header :=
  mkHeader (original h) (added h ++ [mkInfo id number type description]).

Definition added_ids (h : Header) : list string := info_id <$> added h.

(** ** The environment: outcomes of everything the script does not define *)

Record Env : Type := mkEnv {
  (** [multiprocessing.cpu_count()] *)
  cpu_count : nat;
  (** [parser.FamilyParser(family_file, family_type).families], as the items
      of the dictionary in insertion order *)
  family_parser : string → string → result (list (string * Family));
  (** [pysam.tabix_index(file, ...)]: [Some e] when it raises [e] *)
  tabix_index : string → option exn;
  (** [vcf_parser.VCFParser(variant_file)]: its [metadata] and [individuals] *)
  vcf_parser : string → result (Header * list string);
  (** [head.print_header()] *)
  print_header : Header → list string;
  (** [annotation_parser.AnnotationParser(file, type, splice_padding, verbosity)]:
      the pickled [gene_trees] and [exon_trees] *)
  annotation_parser : string → string → Z → bool → result (string * string);
  (** [pickle.load] on the content of a file: [Some e] when it raises [e] *)
  unpickle : string → option exn;
  (** whether [open(path, 'w')] succeeds *)
  writable : string → bool;
  (** the directory [tempfile.mkdtemp()] makes *)
  mkdtemp : string;
  (** [VariantAnnotator(...).annotate()] with the workers consuming its
      batches: the [chromosomes] it has seen, or the exception it raises *)
  variant_annotator : result (list string);
  (** [os.listdir(temp_dir)] once the printer has finished *)
  listdir : string → list string;
  (** [variant_sorter.FileSort(path, kwargs).sort()]: [Some e] when it raises *)
  file_sort : string → option exn;
  (** [str(datetime.now() - start)] *)
  elapsed : string
}.

Definition lift_unit (o : option exn) : M unit :=
  match o with
  | Some e => raise e
  | None => ret tt
  end.

(** [open(path, 'w')] (or ['wb']) followed by writing [content] and closing:
    the file is created or truncated, never appended to. *)
Definition write_file (env : Env) (path content : string) : M unit :=
  λ st, if writable env path
        then (Ok tt, mkState (<[path := content]> (files st)) (dirs st) (stdout st)
                             (consumers_started st) (printer_started st))
        else (Raise (IOError ("[Errno 13] Permission denied: '" +:+ path +:+ "'")), st).

Definition make_tempdir (env : Env) : M string :=
  λ st, (Ok (mkdtemp env),
         mkState (files st) ({[mkdtemp env]} ∪ dirs st) (stdout st)
                 (consumers_started st) (printer_started st)).

(** [shutil.rmtree(d)] *)
Definition rmtree (d : string) : M unit :=
  λ st, (Ok tt, mkState (files st) (dirs st ∖ {[d]}) (stdout st)
                        (consumers_started st) (printer_started st)).

(** [w.start()] for a [VariantConsumer] and for the [VariantPrinter] *)
Definition start_consumer : M unit :=
  λ st, (Ok tt, mkState (files st) (dirs st) (stdout st)
                        (S (consumers_started st)) (printer_started st)).

Definition start_printer : M unit :=
  λ st, (Ok tt, mkState (files st) (dirs st) (stdout st)
                        (consumers_started st) true).

(** ** The functions of [run_genmod.py] *)

(** [d.popitem()] on a dictionary kept as its items in insertion order: the
    item inserted last is removed and returned; an empty dictionary raises
    [KeyError]. *)
Definition popitem {V} (d : list (string * V)) : result (string * V) :=
  match last d with
  | Some kv => Ok kv
  | None => Raise (KeyError "'popitem(): dictionary is empty'")
  end.

(** [get_family(family_file, family_type)], lines 38-43.  Nothing of the
    process state is touched, so the function is a plain [result]. *)
Definition get_family (env : Env) (family_file family_type : string) : result Family :=
  match family_parser env family_file family_type with
  | Ok families =>
      match popitem families with
      | Ok item => Ok item.2
      | Raise e => Raise e
      end
  | Raise e => Raise e
  end.

(** [add_metadata(head, **kwargs)], lines 45-56.  The header is mutated in
    place by the script; here the updated header is returned. *)
Definition add_metadata (head : Header) (kwargs : gmap string value) : Header :=
  let head :=
    if negb (truthy (dict_get kwargs "vep" (VBool false)))
    then add_info head "ANN" "." "String" "Annotates what feature(s) this variant belongs to."
    else head in
  let head := add_info head "Comp" "." "String" "':'-separated list of compound pairs for this variant." in
  let head := add_info head "GM" "." "String" "':'-separated list of genetic models for this variant." in
  let head := add_info head "MS" "1" "Integer" "PHRED score for genotype models." in
  let head :=
    if truthy (dict_get kwargs "cadd_file" VNone) || truthy (dict_get kwargs "cadd_1000g" VNone)
    then add_info head "CADD" "1" "Float" "The CADD relative score for this alternative."
    else head in
  let head :=
    if truthy (dict_get kwargs "thousand_g" VNone)
    then add_info head "1000G_freq" "1" "Float" "Frequency in the 1000G database."
    else head in
  head.

(** The text [f.write(head_count+'\n')] leaves in the file, line after line. *)
Definition header_text (lines : list string) : string :=
  String.concat "" ((λ l, l +:+ newline) <$> lines).

(** [print_headers(head, outfile, silent=False)], lines 58-68. *)
Definition print_headers (env : Env) (head : Header) (outfile : option string) (silent : bool)
  : M unit :=
  if truthy (of_path outfile) then
    write_file env (default "" outfile) (header_text (print_header env head))
  else
    if negb silent then for_each (print_header env head) print
    else ret tt.

(** [check_tabix_index(compressed_file, file_type='cadd', verbose=False)],
    lines 70-84. *)
Definition check_tabix_index (env : Env) (compressed_file file_type : string) (verbose : bool)
  : M unit :=
  if String.eqb file_type "cadd" then
    try_except (lift_unit (tabix_index env compressed_file)) is_IOError
               (λ e, if verbose then print (str_exn e) else ret tt)
  else if String.eqb file_type "vcf" then
    try_except (lift_unit (tabix_index env compressed_file)) is_IOError
               (λ e, if verbose then print (str_exn e) else ret tt)
  else ret tt.

(** [build_annotation(config, annotation_file, annotation_type, outdir,
    splice_padding)], lines 143-158. *)
Definition build_annotation (env : Env) (verbose : bool)
    (annotation_file annotation_type outdir : string) (splice_padding : Z) : M unit :=
  when verbose
    (print ("Building new annotation databases from " +:+ annotation_file
            +:+ " into " +:+ outdir +:+ ".")) ;;;
  trees <- lift (annotation_parser env annotation_file annotation_type splice_padding verbose) ;;
  let gene_db := path_join outdir "genes.db" in
  let exon_db := path_join outdir "exons.db" in
  write_file env gene_db trees.1 ;;;
  write_file env exon_db trees.2.

(** The parameters click hands to [annotate]; [verbose] is [config.verbose]. *)
Record Args : Type := mkArgs {
  verbose : bool;
  family_file : string;
  variant_file : string;
  family_type : string;
  vep : bool;
  silent : bool;
  phased : bool;
  whole_gene : bool;
  annotation_dir : string;
  cadd_file : option string;
  cadd_1000g : option string;
  thousand_g : option string;
  outfile : option string
}.

(** The [kwargs] dictionary of lines 229-233. *)
Definition make_kwargs (a : Args) : gmap string value :=
  <["config" := VObj]> $ <["family_file" := VStr (family_file a)]> $
  <["variant_file" := VStr (variant_file a)]> $ <["family_type" := VStr (family_type a)]> $
  <["vep" := VBool (vep a)]> $ <["silent" := VBool (silent a)]> $
  <["phased" := VBool (phased a)]> $ <["whole_gene" := VBool (whole_gene a)]> $
  <["annotation_dir" := VStr (annotation_dir a)]> $
  <["cadd_file" := of_path (cadd_file a)]> $ <["cadd_1000g" := of_path (cadd_1000g a)]> $
  <["thousand_g" := of_path (thousand_g a)]> $ <["outfile" := of_path (outfile a)]> $
  <["verbosity" := VBool (verbose a)]> ∅.

(** An argument of a call. *)
Inductive arg : Type :=
| AHeader (h : Header)
| ADict (d : gmap string value).

(** A call of [add_metadata] with the given positional and keyword
    arguments: they are bound to the signature [add_metadata(head, **kwargs)],
    which accepts exactly one positional argument. *)
Definition call_add_metadata (positional : list arg) (keywords : gmap string value)
  : M Header :=
  match positional with
  | [] => raise (TypeError "add_metadata() missing 1 required positional argument: 'head'")
  | [AHeader h] => ret (add_metadata h keywords)
  | [ADict _] => raise (LibraryError "'dict' object has no attribute 'add_info'")
  | _ :: _ :: _ =>
      raise (TypeError ("add_metadata() takes 1 positional argument but "
                        +:+ pretty (length positional) +:+ " were given"))
  end.

(** [temp_file.split('_')[0]] *)
Fixpoint before_underscore (s : string) : string :=
  match s with
  | EmptyString => EmptyString
  | String c rest =>
      if Ascii.eqb c "_"%char then EmptyString else String c (before_underscore rest)
  end.

(** Lines 236-245: the index files are opened and unpickled; a missing file
    is reported and the handler falls through ([pass]). *)
Definition read_index (env : Env) (a : Args) : M unit :=
  let gene_db := path_join (annotation_dir a) "genes.db" in
  let exon_db := path_join (annotation_dir a) "exons.db" in
  f <- read_file gene_db ;;
  lift_unit (unpickle env f) ;;;
  g <- read_file exon_db ;;
  lift_unit (unpickle env g).

Definition load_annotation (env : Env) (a : Args) : M unit :=
  try_except (read_index env a) is_FileNotFoundError
             (λ _, print "You need to build annotations! See documentation.").

(** Lines 249-260. *)
Definition index_source (env : Env) (a : Args) (source : option string) (file_type : string)
  : M unit :=
  if truthy (of_path source) then
    when (verbose a) (print ("Cadd file! " +:+ default "" source)) ;;;
    check_tabix_index env (default "" source) file_type (verbose a)
  else ret tt.

Definition index_sources (env : Env) (a : Args) : M unit :=
  index_source env a (cadd_file a) "cadd" ;;;
  index_source env a (cadd_1000g a) "cadd" ;;;
  index_source env a (thousand_g a) "vcf".

(** [set(family.individuals.keys()) != set(variant_parser.individuals)] *)
Definition individuals_differ (fam : Family) (vcf_individuals : list string) : bool :=
  bool_decide ((list_to_set (individual_keys fam) : gset string)
               ≠ list_to_set vcf_individuals).

(** Lines 265-270. *)
Definition check_individuals (fam : Family) (vcf_individuals : list string) : M unit :=
  if individuals_differ fam vcf_individuals then
    print "There must be same individuals in ped file and vcf file! Aborting..." ;;;
    print ("Individuals in PED file: " +:+ join tab (individual_keys fam)) ;;;
    print ("Individuals in VCF file: " +:+ join tab vcf_individuals) ;;;
    raise (SystemExit None)
  else ret tt.

(** Line 286: the number of [VariantConsumer] processes.  (Line 285, which
    computed it from [cpu_count()], is commented out in the script.) *)
Definition num_model_checkers (env : Env) : nat := 1%nat.

(** Lines 331-335. *)
Definition sort_chromosomes (env : Env) (temp_dir : string) (chromosome_list : list string)
  : M unit :=
  for_each chromosome_list (λ chromosome,
    for_each (listdir env temp_dir) (λ temp_file,
      if String.eqb (before_underscore temp_file) chromosome
      then lift_unit (file_sort env (path_join temp_dir temp_file))
      else ret tt)).

(** Lines 278-344: queues, scratch directory, workers, printer, annotator,
    header, sorting, clean-up. *)
Definition run_pipeline (env : Env) (a : Args) (head : Header) : M unit :=
  let kwargs := make_kwargs a in
  temp_dir <- make_tempdir env ;;
  when (verbose a) (print ("Number of CPU:s " +:+ pretty (cpu_count env))) ;;;
  for_each (seq 0 (num_model_checkers env)) (λ _, start_consumer) ;;;
  start_printer ;;;
  when (verbose a) (print "Start parsing the variants ..." ;;; print "") ;;;
  chromosome_list <- lift (variant_annotator env) ;;
  when (verbose a)
    (print ("Cromosomes found in variant file: " +:+ join "," chromosome_list) ;;;
     print "Models checked!" ;;;
     print "Start sorting the variants:" ;;;
     print "") ;;;
  head <- call_add_metadata [AHeader head; ADict kwargs] ∅ ;;
  print_headers env head (outfile a) (silent a) ;;;
  sort_chromosomes env temp_dir chromosome_list ;;;
  when (verbose a)
    (print "Sorting done!" ;;;
     print ("Time for sorting: " +:+ elapsed env) ;;;
     print "" ;;;
     raise (NameError "start_time_analysis")) ;;;
  rmtree temp_dir.

(** The part of [annotate] that follows the loading of the index files,
    lines 247-344. *)
Definition annotate_from_family (env : Env) (a : Args) : M unit :=
  fam <- lift (get_family env (family_file a) (family_type a)) ;;
  index_sources env a ;;;
  parsed <- lift (vcf_parser env (variant_file a)) ;;
  check_individuals fam parsed.2 ;;;
  run_pipeline env a parsed.1.

(** [annotate(config, family_file, variant_file, ...)], lines 223-344. *)
Definition annotate (env : Env) (a : Args) : M unit :=
  load_annotation env a ;;;
  annotate_from_family env a.

(** ** The classifier called by [tests/test_recessive.py]

    [genmod.models.genetic_models] and [genmod.variants.genotype] are not
    among the sources; the test suite only calls them.  They are modelled
    from sections 3, 4.D and 8 of the specification. *)

Module GeneticModels.

(** Modelled from the spec: the genotype of section 3, absent from the
    sources: one of hom_ref, het, hom_alt and missing. *)
Inductive Genotype : Type := hom_ref | het | hom_alt | missing.

(** A variant as the test suite builds it: a dictionary of the columns of
    the record and of one genotype call per individual id, to which the
    classifier attaches the dictionary ['Inheritance_model']. *)
Record Variant : Type := mkVariant {
  fields : gmap string string;
  Inheritance_model : gmap string bool
}.

(** Modelled from the spec: the reading of a call, absent from the sources
    ([genmod.variants.genotype]).  The scenarios of section 8 write hom_ref
    as 0/0, het as 0/1, hom_alt as 1/1 and missing as ./. *)
Definition genotype_of_call (call : string) : Genotype :=
  if String.eqb call "0/0" then hom_ref
  else if String.eqb call "0/1" || String.eqb call "1/0" then het
  else if String.eqb call "1/1" then hom_alt
  else missing.

(** Modelled from the spec: the genotype of an individual at a variant,
    absent from the sources; an individual without a call is missing. *)
Definition genotype_of (v : Variant) (id : string) : Genotype :=
  match fields v !! id with
  | Some call => genotype_of_call call
  | None => missing
  end.

Definition is_hom_ref (g : Genotype) : bool := match g with hom_ref => true | _ => false end.
Definition is_het (g : Genotype) : bool := match g with het => true | _ => false end.
Definition is_hom_alt (g : Genotype) : bool := match g with hom_alt => true | _ => false end.

(** Modelled from the spec: the tolerance for missing calls of section
    4.D, absent from the sources: a model is not falsified by a missing
    call, so a condition on a call holds of a missing one. *)
Definition permissive (cond : Genotype → bool) (g : Genotype) : bool :=
  match g with
  | missing => true
  | _ => cond g
  end.

(** The phenotype of the pedigree: 2 is affected and 1 unaffected, as for
    [sick_son] and [healthy_father] in the test suite. *)
Definition affected (i : Individual) : bool := phenotype i =? 2.
Definition unaffected (i : Individual) : bool := phenotype i =? 1.

(** The parents of an individual that are on record (id other than ["0"],
    which marks a founder). *)
Definition parents (i : Individual) : list string :=
  filter (λ p, p ≠ "0") [father i; mother i].

Definition members (fam : Family) : list Individual := (individuals fam).*2.

(** Modelled from the spec: third condition of AR_hom in section 4.D,
    absent from the sources: no unaffected individual is hom_alt. *)
Definition no_unaffected_hom_alt (fam : Family) (v : Variant) : bool :=
  forallb (λ i, negb (unaffected i && is_hom_alt (genotype_of v (ind i)))) (members fam).

(** Modelled from the spec: the conditions of AR_hom in section 4.D that
    bear on the individuals themselves, absent from the sources: the
    affected individual [a] is hom_alt (a missing call does not falsify
    this) and no unaffected individual is hom_alt. *)
Definition carries_hom_alt (fam : Family) (v : Variant) (a : Individual) : bool :=
  permissive is_hom_alt (genotype_of v (ind a)) && no_unaffected_hom_alt fam v.

(** Modelled from the spec: AR_hom of section 4.D for an affected
    individual [a], absent from the sources: [a] is hom_alt, both parents
    are het or missing, no unaffected individual is hom_alt. *)
Definition AR_hom_for (fam : Family) (v : Variant) (a : Individual) : bool :=
  carries_hom_alt fam v a
  && forallb (λ p, permissive is_het (genotype_of v p)) (parents a).

(** Modelled from the spec: AR_hom_denovo of section 4.D for an affected
    individual [a], absent from the sources: the AR_hom conditions hold and
    at least one parent is hom_ref, a missing parent call neither
    confirming nor refuting it.  The conditions taken over from AR_hom are
    those on the individuals themselves: the two forms differ in what they
    ask of the parents (scenario 2 of section 8 and [test_recessive_dn]: a
    het father and a hom_ref mother give AR_hom_denovo and not AR_hom). *)
Definition AR_hom_denovo_for (fam : Family) (v : Variant) (a : Individual) : bool :=
  carries_hom_alt fam v a
  && existsb (λ p, permissive is_hom_ref (genotype_of v p)) (parents a).

(** Modelled from the spec: the other reading of the same sentence of
    section 4.D, with the parental condition of AR_hom kept. *)
Definition AR_hom_denovo_strict_for (fam : Family) (v : Variant) (a : Individual) : bool :=
  AR_hom_for fam v a
  && existsb (λ p, permissive is_hom_ref (genotype_of v p)) (parents a).

(** Modelled from the spec: when a recessive model is asserted (section
    4.D), absent from the sources: every affected individual satisfies it
    and at least one of them has an informative call consistent with it,
    that is, is hom_alt. *)
Definition holds (model : Family → Variant → Individual → bool) (fam : Family) (v : Variant)
  : bool :=
  let sick := filter (λ i, affected i = true) (members fam) in
  forallb (model fam v) sick
  && existsb (λ a, is_hom_alt (genotype_of v (ind a))) sick.

(** Modelled from the spec: the inheritance flags of section 3, absent
    from the sources, for the two recessive models followed here. *)
Definition flags (fam : Family) (v : Variant) : gmap string bool :=
  <["AR_hom" := holds AR_hom_for fam v]> $
  <["AR_hom_denovo" := holds AR_hom_denovo_for fam v]> ∅.

(** Modelled from the spec: the classification of one variant, absent
    from the sources: the flags are attached to the variant. *)
Definition classify (fam : Family) (v : Variant) : Variant :=
  mkVariant (fields v) (flags fam v).

(** Modelled from the spec: the classification of the variants of one
    gene, absent from the sources.  A variant lying in several genes is one
    shared object (sections 3 and 9), so the variants live in a store under
    their variant key, a gene lists keys, and a variant is classified in
    place. *)
Definition check_gene (fam : Family) (keys : list string) (store : gmap string Variant)
  : gmap string Variant :=
  foldl (λ st k, alter (classify fam) k st) store keys.

(** Modelled from the spec: [check_genetic_models(batch, family)], absent
    from the sources: every variant of every gene of the batch is
    classified. *)
Definition check_genetic_models (batch : list (string * list string)) (fam : Family)
    (store : gmap string Variant) : gmap string Variant :=
  foldl (λ st gene, check_gene fam gene.2 st) store batch.

(** [variant['Inheritance_model'][model]] of a variant of the store, as
    the test suite reads it. *)
Definition model_flag (store : gmap string Variant) (key model : string) : option bool :=
  v ← store !! key; Inheritance_model v !! model.

End GeneticModels.

(** ** The fixture of [tests/test_recessive.py], lines 23-47 *)

Module TestRecessive.
Import GeneticModels.

Definition sick_son : Individual := mkIndividual "1" "1" "3" "2" 1 2.
Definition healthy_father : Individual := mkIndividual "2" "1" "0" "0" 1 1.
Definition healthy_mother : Individual := mkIndividual "3" "1" "0" "0" 2 1.

Definition recessive_family : Family :=
  add_individual
    (add_individual (add_individual (mkFamily "1" []) healthy_father) sick_son)
    healthy_mother.

Definition variant (chrom pos alt ref id g1 g2 g3 : string) : Variant :=
  mkVariant
    (<["CHROM" := chrom]> $ <["POS" := pos]> $ <["ALT" := alt]> $ <["REF" := ref]> $
     <["ID" := id]> $ <["1" := g1]> $ <["2" := g2]> $ <["3" := g3]> ∅)
    ∅.

Definition recessive_variant : Variant := variant "1" "5" "A" "C" "rs2230749" "1/1" "0/1" "0/1".
Definition recessive_dn : Variant := variant "1" "7" "G" "T" "." "1/1" "0/1" "0/0".
Definition recessive_missing : Variant := variant "1" "10" "C" "T" "." "1/1" "./." "0/1".
Definition not_recessive : Variant := variant "1" "15" "C" "T" "." "0/1" "0/1" "./.".

Definition store : gmap string Variant :=
  <["1_5_A_C" := recessive_variant]> $ <["1_10_C_T" := recessive_missing]> $
  <["1_7_G_T" := recessive_dn]> $ <["1_15_C_T" := not_recessive]> ∅.

Definition batch : list (string * list string) :=
  [("ABC", ["1_5_A_C"; "1_10_C_T"; "1_7_G_T"]);
   ("BBC", ["1_10_C_T"; "1_15_C_T"])].

Definition classified : gmap string Variant :=
  check_genetic_models batch recessive_family store.

End TestRecessive.

(** ** Vocabulary of the statements *)

(** The state after [out] has been printed, nothing else having changed. *)
Definition say (out : list string) (st : State) : State :=
  mkState (files st) (dirs st) (stdout st ++ out) (consumers_started st) (printer_started st).

(** [m] relates every state it is run from to the state it ends in by [P],
    whatever its result. *)
Definition stable {A} (P : State → State → Prop) (m : M A) : Prop :=
  ∀ st, P st (m st).2.

Definition only_said (st st' : State) : Prop := ∃ out, st' = say out st.

(** The try block of [load_annotation] ends in [FileNotFoundError]: the
    genes blob is missing, or it loads and the exons blob is missing. *)
Definition index_missing (env : Env) (a : Args) (st : State) : bool :=
  match files st !! path_join (annotation_dir a) "genes.db" with
  | None => true
  | Some f =>
      match unpickle env f with
      | None => bool_decide (files st !! path_join (annotation_dir a) "exons.db" = None)
      | Some _ => false
      end
  end.

Definition index_report : string := "You need to build annotations! See documentation.".

(** What [check_individuals] prints before it exits. *)
Definition mismatch_report (fam : Family) (vcf_individuals : list string) : list string :=
  [ "There must be same individuals in ped file and vcf file! Aborting...";
    "Individuals in PED file: " +:+ join tab (individual_keys fam);
    "Individuals in VCF file: " +:+ join tab vcf_individuals ].

(** An option of [annotate] counts as given when it is truthy. *)
Definition given (o : option string) : bool := truthy (of_path o).

Definition info_ANN : InfoLine :=
  mkInfo "ANN" "." "String" "Annotates what feature(s) this variant belongs to.".
Definition info_Comp : InfoLine :=
  mkInfo "Comp" "." "String" "':'-separated list of compound pairs for this variant.".
Definition info_GM : InfoLine :=
  mkInfo "GM" "." "String" "':'-separated list of genetic models for this variant.".
Definition info_MS : InfoLine :=
  mkInfo "MS" "1" "Integer" "PHRED score for genotype models.".
Definition info_CADD : InfoLine :=
  mkInfo "CADD" "1" "Float" "The CADD relative score for this alternative.".
Definition info_1000G : InfoLine :=
  mkInfo "1000G_freq" "1" "Float" "Frequency in the 1000G database.".

(** *** The properties as the specification words them *)

(** A missing index is fatal: reported, exit status 3, no worker started. *)
Definition missing_index_fatal (env : Env) (a : Args) (st : State) : Prop :=
  index_report ∈ stdout (annotate env a st).2
  ∧ exit_status (annotate env a st).1 = 3
  ∧ consumers_started (annotate env a st).2 = consumers_started st.

(** Differing individuals abort the run with exit status 1 and no worker. *)
Definition mismatch_exits_1 (env : Env) (a : Args) (st : State) : Prop :=
  exit_status (annotate env a st).1 = 1
  ∧ consumers_started (annotate env a st).2 = consumers_started st.

(** The default number of workers of section 4.F. *)
Definition default_workers (env : Env) : nat := Nat.max 1 (cpu_count env * 2 - 1).

(** The scratch directory is gone when the run is over. *)
Definition scratch_removed (env : Env) (a : Args) (st : State) : Prop :=
  mkdtemp env ∉ dirs (annotate env a st).2.

(** The header gains ANN, Comp, GM and MS, then CADD and 1000G_freq when
    their sources are given. *)
Definition four_lines_and_optional (head : Header) (a : Args) : Prop :=
  added_ids (add_metadata head (make_kwargs a))
  = added_ids head ++ ["ANN"; "Comp"; "GM"; "MS"]
    ++ (if given (cadd_file a) || given (cadd_1000g a) then ["CADD"] else [])
    ++ (if given (thousand_g a) then ["1000G_freq"] else []).

(** The blobs are at [outdir/genes] and [outdir/exons]. *)
Definition blobs_at_genes_exons (outdir : string) (st : State) : Prop :=
  is_Some (files st !! path_join outdir "genes")
  ∧ is_Some (files st !! path_join outdir "exons").

(** An error is surfaced when the step raises or prints something. *)
Definition surfaced {A} (st : State) (run : result A * State) : Prop :=
  (∃ e, run.1 = Raise e) ∨ stdout run.2 ≠ stdout st.


(** A family whose only affected individual is [child], with a father and
    a mother on record, and whose unaffected individuals are those two. *)
Definition affected_child_of_unaffected_parents (fam : Family) (child : Individual) : Prop :=
  filter (λ i, GeneticModels.affected i = true) (GeneticModels.members fam) = [child]
  ∧ father child ≠ "0"
  ∧ mother child ≠ "0"
  ∧ Forall (λ i, GeneticModels.unaffected i = true →
                 ind i = father child ∨ ind i = mother child)
           (GeneticModels.members fam).

(** ** Sample runs *)

Module Sample.

Definition header : Header := mkHeader ["##fileformat=VCFv4.1"] [].

Definition second_family : Family :=
  add_individual (mkFamily "2" []) (mkIndividual "7" "2" "0" "0" 2 2).

(** A machine with [cpus] processors, a pedigree defining [families], a
    tabix that ends as [tabix], a variant file naming [vcf_individuals],
    and an annotator that ends as [annotator]. *)
Definition env (cpus : nat) (families : list (string * Family)) (tabix : option exn)
    (vcf_individuals : list string) (annotator : result (list string)) : Env :=
  {| cpu_count := cpus;
     family_parser := λ _ _, Ok families;
     tabix_index := λ _, tabix;
     vcf_parser := λ _, Ok (header, vcf_individuals);
     print_header := λ h, original h ++ added_ids h;
     annotation_parser := λ _ _ _ _, Ok ("genes", "exons");
     unpickle := λ _, None;
     writable := λ _, true;
     mkdtemp := "/tmp/tmpk3x9";
     variant_annotator := annotator;
     listdir := λ _, ["1_variants"];
     file_sort := λ _, None;
     elapsed := "0:00:01" |}.

Definition one_family : list (string * Family) := [("1", TestRecessive.recessive_family)].

Definition good : Env := env 4 one_family None ["1"; "2"; "3"] (Ok ["1"]).
Definition mismatch : Env := env 4 one_family None ["1"; "2"] (Ok ["1"]).
Definition worker_fails : Env :=
  env 4 one_family None ["1"; "2"; "3"] (Raise (LibraryError "not a variant line")).
Definition tabix_fails : Env :=
  env 4 one_family (Some (IOError "could not open cadd.tsv.gz")) ["1"; "2"; "3"] (Ok ["1"]).
Definition two_families : Env :=
  env 4 [("2", second_family); ("1", TestRecessive.recessive_family)] None
      ["1"; "2"; "3"] (Ok ["1"]).

Definition args (verbose vep : bool) (cadd : option string) (out : option string) : Args :=
  mkArgs verbose "family.ped" "variants.vcf" "ped" vep false false false "annotations/"
         cadd None None out.

Definition plain : Args := args false false None None.

Definition with_index : gmap string string :=
  <["annotations/genes.db" := "genes"]> $ <["annotations/exons.db" := "exons"]> ∅.

End Sample.

(** ** The default annotation directory, line 99

    [default_annotations] is computed from the location of the package with
    [os.path.dirname], [os.path.split] and [os.path.join] of posixpath. *)

Module PosixPath.

Definition is_sep (c : ascii) : bool := Ascii.eqb c "/"%char.

(** ['/' in s] *)
Fixpoint has_sep (s : string) : bool :=
  match s with
  | EmptyString => false
  | String c rest => is_sep c || has_sep rest
  end.

(** [s == '/' * len(s)] *)
Fixpoint all_sep (s : string) : bool :=
  match s with
  | EmptyString => true
  | String c rest => is_sep c && all_sep rest
  end.

(** [s.rstrip('/')] *)
Fixpoint rstrip_sep (s : string) : string :=
  match s with
  | EmptyString => EmptyString
  | String c rest => if is_sep c && all_sep rest then EmptyString else String c (rstrip_sep rest)
  end.

(** [(p[:i], p[i:])] for [i = p.rfind('/') + 1]: the path up to and
    including its last separator, and what follows it. *)
Fixpoint cut_last_sep (p : string) : string * string :=
  match p with
  | EmptyString => (EmptyString, EmptyString)
  | String c rest =>
      if has_sep rest then (String c (cut_last_sep rest).1, (cut_last_sep rest).2)
      else if is_sep c then (String c EmptyString, rest)
      else (EmptyString, String c rest)
  end.

(** [if head and head != sep*len(head): head = head.rstrip(sep)] *)
Definition trim_head (head : string) : string :=
  if negb (String.eqb head "") && negb (all_sep head) then rstrip_sep head else head.

(** [os.path.split(p)] *)
Definition split (p : string) : string * string :=
  (trim_head (cut_last_sep p).1, (cut_last_sep p).2).

(** [os.path.dirname(p)] *)
Definition dirname (p : string) : string := trim_head (cut_last_sep p).1.

End PosixPath.

(** Line 99, with [genmod_file] for [genmod.__file__]:
    [os.path.join(os.path.split(os.path.dirname(genmod.__file__))[0], 'annotations/')]. *)
Definition default_annotations (genmod_file : string) : string :=
  path_join (PosixPath.split (PosixPath.dirname genmod_file)).1 "annotations/".

(** ** More vocabulary *)

(** ['_' in s] *)
Fixpoint has_underscore (s : string) : bool :=
  match s with
  | EmptyString => false
  | String c rest => Ascii.eqb c "_"%char || has_underscore rest
  end.

(** A newline occurs in [s]. *)
Fixpoint has_newline (s : string) : bool :=
  match s with
  | EmptyString => false
  | String c rest => Ascii.eqb c "010"%char || has_newline rest
  end.

(** [text.split(newline)]: the pieces between newlines, an empty piece
    after a final newline included. *)
Fixpoint split_newline (text : string) : list string :=
  match text with
  | EmptyString => [EmptyString]
  | String c rest =>
      if Ascii.eqb c "010"%char then EmptyString :: split_newline rest
      else match split_newline rest with
           | piece :: pieces => String c piece :: pieces
           | [] => [String c EmptyString]
           end
  end.

(** The spill files that lines 332-333 pick for a chromosome: those whose
    name up to the first underscore is the chromosome, in the order of
    [os.listdir]. *)
Definition spill_files_of (env : Env) (temp_dir chromosome : string) : list string :=
  filter (λ temp_file, before_underscore temp_file = chromosome) (listdir env temp_dir).

(** The paths handed to [FileSort], chromosome after chromosome. *)
Definition sorted_paths (env : Env) (temp_dir : string) (chromosome_list : list string)
  : list string :=
  concat ((λ chromosome, path_join temp_dir <$> spill_files_of env temp_dir chromosome)
          <$> chromosome_list).

(** What [build_annotation] echoes in verbose mode. *)
Definition build_echo (annotation_file outdir : string) : string :=
  "Building new annotation databases from " +:+ annotation_file
  +:+ " into " +:+ outdir +:+ ".".


(** ** More sample environments *)

Module Scenario.

(** [Sample.good] where only the files that [can_write] accepts can be
    opened for writing and [pickle.load] ends as [load] says. *)
Definition env (can_write : string → bool) (load : string → option exn) : Env :=
  mkEnv (cpu_count Sample.good) (family_parser Sample.good) (tabix_index Sample.good)
        (vcf_parser Sample.good) (print_header Sample.good) (annotation_parser Sample.good)
        load can_write (mkdtemp Sample.good) (variant_annotator Sample.good)
        (listdir Sample.good) (file_sort Sample.good) (elapsed Sample.good).

Definition exons_read_only : Env :=
  env (λ path, negb (String.eqb path "out/exons.db")) (λ _, None).

Definition rejects_garbage : Env :=
  env (λ _, true)
      (λ content, if String.eqb content "garbage"
                  then Some (LibraryError "invalid load key") else None).

Definition corrupt_index : gmap string string :=
  <["annotations/genes.db" := "garbage"]> $ <["annotations/exons.db" := "exons"]> ∅.


(** Spill files of chromosomes 1, 10 and a contig with an underscore in
    its name; sorting anything raises. *)
Definition spill_files : Env :=
  mkEnv (cpu_count Sample.good) (family_parser Sample.good) (tabix_index Sample.good)
        (vcf_parser Sample.good) (print_header Sample.good) (annotation_parser Sample.good)
        (unpickle Sample.good) (writable Sample.good) (mkdtemp Sample.good)
        (variant_annotator Sample.good)
        (λ _, ["1_variants"; "10_variants"; "GL000207_random_variants"])
        (λ _, Some (LibraryError "sort failed")) (elapsed Sample.good).


Definition parser_rejects : Env :=
  mkEnv (cpu_count Sample.good) (family_parser Sample.good) (tabix_index Sample.good)
        (vcf_parser Sample.good) (print_header Sample.good)
        (λ _ _ _ _, Raise (LibraryError "unknown annotation type"))
        (unpickle Sample.good) (writable Sample.good) (mkdtemp Sample.good)
        (variant_annotator Sample.good) (listdir Sample.good) (file_sort Sample.good)
        (elapsed Sample.good).

End Scenario.

(** ** Basic facts about the monad and the state *)

Lemma say_nil st : say [] st = st.
Proof. destruct st; unfold say; simpl. by rewrite app_nil_r. Qed.

Lemma say_say out1 out2 st : say out2 (say out1 st) = say (out1 ++ out2) st.
Proof. unfold say; simpl. by rewrite app_assoc. Qed.

Lemma print_say line st : print line st = (Ok tt, say [line] st).
Proof. reflexivity. Qed.

Lemma for_each_print lines st : for_each lines print st = (Ok tt, say lines st).
Proof.
  revert st. induction lines as [|l lines IH]; intros st; simpl.
  - by rewrite say_nil.
  - unfold bind. rewrite print_say, IH, say_say. reflexivity.
Qed.

Section Stable.
Context (P : State → State → Prop).
Hypothesis P_refl : ∀ st, P st st.
Hypothesis P_trans : ∀ st1 st2 st3, P st1 st2 → P st2 st3 → P st1 st3.

Lemma stable_ret {A} (a : A) : stable P (ret a).
Proof. intros st. apply P_refl. Qed.

Lemma stable_raise {A} e : stable P (@raise A e).
Proof. intros st. apply P_refl. Qed.

Lemma stable_lift {A} (r : result A) : stable P (lift r).
Proof. intros st. apply P_refl. Qed.

Lemma stable_lift_unit o : stable P (lift_unit o).
Proof. destruct o; [apply stable_raise | apply stable_ret]. Qed.

Lemma stable_bind {A B} (m : M A) (f : A → M B) :
  stable P m → (∀ a, stable P (f a)) → stable P (bind m f).
Proof.
  intros Hm Hf st. unfold bind. specialize (Hm st).
  destruct (m st) as [[a|e] st1]; simpl in *; [|done].
  eapply P_trans; [exact Hm | apply Hf].
Qed.

Lemma stable_when b (m : M unit) : stable P m → stable P (when b m).
Proof. destruct b; simpl; [done | intros _; apply stable_ret]. Qed.

Lemma stable_try {A} (m : M A) handles h :
  stable P m → (∀ e, stable P (h e)) → stable P (try_except m handles h).
Proof.
  intros Hm Hh st. unfold try_except. specialize (Hm st).
  destruct (m st) as [[a|e] st1]; simpl in *; [done|].
  destruct (handles e); simpl; [|done].
  eapply P_trans; [exact Hm | apply Hh].
Qed.

Lemma stable_for_each {A} (l : list A) (body : A → M unit) :
  (∀ x, stable P (body x)) → stable P (for_each l body).
Proof.
  intros Hb. induction l as [|x l IH]; simpl.
  - apply stable_ret.
  - apply stable_bind; [apply Hb | intros _; exact IH].
Qed.
End Stable.

Lemma only_said_refl st : only_said st st.
Proof. exists []. by rewrite say_nil. Qed.

Lemma only_said_trans st1 st2 st3 : only_said st1 st2 → only_said st2 st3 → only_said st1 st3.
Proof. intros [o1 ->] [o2 ->]. exists (o1 ++ o2). apply say_say. Qed.

Lemma print_only_said line : stable only_said (print line).
Proof. intros st. by exists [line]. Qed.

Lemma read_file_only_said path : stable only_said (read_file path).
Proof.
  intros st. unfold read_file. destruct (files st !! path); apply only_said_refl.
Qed.

(** Tactic for the frame lemmas below: peel the combinators of a step and
    close the leaves with the facts on the primitive operations. *)
Ltac frame refl trans leaves :=
  repeat first
    [ apply (stable_bind _ trans); [|intros ?]
    | apply (stable_when _ refl)
    | apply (stable_try _ trans); [|intros ?]
    | apply (stable_for_each _ refl trans); intros ?
    | apply (stable_ret _ refl)
    | apply (stable_raise _ refl)
    | apply (stable_lift _ refl)
    | apply (stable_lift_unit _ refl)
    | leaves ].

Ltac said := frame only_said_refl only_said_trans
  ltac:(first [apply print_only_said | apply read_file_only_said]).

Lemma load_annotation_only_said env a : stable only_said (load_annotation env a).
Proof. unfold load_annotation, read_index. said. Qed.

Lemma check_tabix_index_only_said env f t v : stable only_said (check_tabix_index env f t v).
Proof.
  unfold check_tabix_index.
  destruct (String.eqb t "cadd"); [|destruct (String.eqb t "vcf")]; said;
    destruct v; said.
Qed.

Lemma index_sources_only_said env a : stable only_said (index_sources env a).
Proof.
  unfold index_sources, index_source.
  said;
  repeat match goal with
         | |- stable _ (if ?c then _ else _) => destruct c
         end; said; apply check_tabix_index_only_said.
Qed.

Lemma check_individuals_only_said fam inds : stable only_said (check_individuals fam inds).
Proof. unfold check_individuals. destruct (individuals_differ fam inds); said. Qed.

Lemma bind_inv {A B} (m : M A) (f : A → M B) st r st' :
  bind m f st = (r, st') →
  (∃ a st1, m st = (Ok a, st1) ∧ f a st1 = (r, st'))
  ∨ (∃ e, m st = (Raise e, st') ∧ r = Raise e).
Proof.
  unfold bind. destruct (m st) as [[a|e] st1]; intros H.
  - left. by eexists _, _.
  - right. simplify_eq. by eexists.
Qed.

(** ** The course of an [annotate] run *)

Lemma load_annotation_missing env a st :
  index_missing env a st = true →
  load_annotation env a st = (Ok tt, say [index_report] st).
Proof.
  unfold index_missing, load_annotation, read_index, try_except, bind, read_file.
  destruct (files st !! path_join (annotation_dir a) "genes.db") as [f|]; [|done].
  unfold lift_unit. destruct (unpickle env f); [done|]. simpl.
  intros Hex%bool_decide_eq_true. by rewrite Hex.
Qed.

(** Whatever the environment, the pipeline stops with an exception after
    the scratch directory, one consumer and the printer have been set up:
    either the annotator raises, or the call of [add_metadata] on line 328
    is rejected. *)
Lemma run_pipeline_raises env a head st :
  ∃ e st', run_pipeline env a head st = (Raise e, st')
    ∧ dirs st' = {[mkdtemp env]} ∪ dirs st
    ∧ consumers_started st' = S (consumers_started st)
    ∧ printer_started st' = true
    ∧ files st' = files st.
Proof.
  unfold run_pipeline, bind, make_tempdir, when, num_model_checkers. simpl.
  destruct (verbose a), (variant_annotator env) as [chromosomes|e]; simpl;
    eexists _, _; (split; [reflexivity|]); simpl; done.
Qed.

Lemma check_individuals_differ fam inds st :
  individuals_differ fam inds = true →
  check_individuals fam inds st = (Raise (SystemExit None), say (mismatch_report fam inds) st).
Proof.
  intros H. unfold check_individuals. rewrite H.
  unfold bind. rewrite !print_say. unfold raise. by rewrite !say_say.
Qed.

(** A run either stops before the pipeline, having done nothing but print,
    or is the pipeline run from a state that differs from the initial one
    by what has been printed; the latter only for a family and a variant
    file with the same individuals. *)
Lemma annotate_course env a st :
  (∃ e out, annotate env a st = (Raise e, say out st))
  ∨ (∃ fam head inds out,
       get_family env (family_file a) (family_type a) = Ok fam
       ∧ vcf_parser env (variant_file a) = Ok (head, inds)
       ∧ individuals_differ fam inds = false
       ∧ annotate env a st = run_pipeline env a head (say out st)).
Proof.
  destruct (annotate env a st) as [r st'] eqn:H.
  unfold annotate, annotate_from_family in H.
  apply bind_inv in H as [([] & st1 & H1 & H)|(e & H1 & ->)];
    (pose proof (load_annotation_only_said env a st) as [o1 Ho1];
     rewrite H1 in Ho1; simpl in Ho1; subst);
    [|left; by eexists _, _].
  apply bind_inv in H as [(fam & st1 & H0 & H)|(e & H0 & ->)];
    unfold lift in H0; simplify_eq; [|left; by eexists _, _].
  apply bind_inv in H as [([] & st1 & H2 & H)|(e & H2 & ->)];
    (pose proof (index_sources_only_said env a (say o1 st)) as [o2 Ho2];
     rewrite H2 in Ho2; simpl in Ho2; subst; rewrite say_say in * );
    [|left; by eexists _, _].
  apply bind_inv in H as [([head inds] & st1 & H3 & H)|(e & H3 & ->)];
    unfold lift in H3; simplify_eq; [|left; by eexists _, _].
  apply bind_inv in H as [([] & st1 & H4 & H)|(e & H4 & ->)]; simpl in H4;
    (pose proof (check_individuals_only_said fam inds (say (o1 ++ o2) st)) as [o3 Ho3];
     rewrite H4 in Ho3; simpl in Ho3; subst; rewrite say_say in * );
    [|left; by eexists _, _].
  right. exists fam, head, inds, ((o1 ++ o2) ++ o3). repeat split; try done.
  destruct (individuals_differ fam inds) eqn:Hd; [|done].
  by rewrite (check_individuals_differ _ _ _ Hd) in H4.
Qed.

(** No run of [annotate] returns normally. *)
Lemma annotate_raises env a st : ∃ e st', annotate env a st = (Raise e, st').
Proof.
  destruct (annotate_course env a st)
    as [(e & out & H)|(fam & head & inds & out & _ & _ & _ & H)].
  - by eexists _, _.
  - destruct (run_pipeline_raises env a head (say out st)) as (e & st' & H' & _).
    rewrite H, H'. by eexists _, _.
Qed.


(** ** Missing index files *)

(** C2 (as amended).  When the index files are missing from the annotation
    directory, [annotate] reports it, printing one line before anything
    else is done; the handler then falls through, so the run goes on with
    the pedigree exactly as it would from the state after the report.
    Nothing exits at this point. *)
Theorem missing_index_reported_run_continues env a st :
  index_missing env a st = true →
  load_annotation env a st = (Ok tt, say [index_report] st)
  ∧ annotate env a st = annotate_from_family env a (say [index_report] st).
Proof.
  intros H. pose proof (load_annotation_missing env a st H) as Hload.
  split; [done|]. unfold annotate, bind. by rewrite Hload.
Qed.

Lemma missing_index_reported_run_continues_witness :
  index_missing Sample.good Sample.plain (initial ∅) = true
  ∧ load_annotation Sample.good Sample.plain (initial ∅)
    = (Ok tt, say [index_report] (initial ∅))
  ∧ annotate Sample.good Sample.plain (initial ∅)
    = annotate_from_family Sample.good Sample.plain (say [index_report] (initial ∅)).
Proof.
  split; [reflexivity|].
  apply (missing_index_reported_run_continues Sample.good Sample.plain (initial ∅)).
  reflexivity.
Defined.

(** With no index files at all and a pedigree that matches the variant
    file, the run reports the missing index, starts a worker all the same
    and ends with exit status 1, not 3. *)
Lemma missing_index_not_fatal :
  index_missing Sample.good Sample.plain (initial ∅) = true
  ∧ consumers_started (annotate Sample.good Sample.plain (initial ∅)).2 = 1%nat
  ∧ exit_status (annotate Sample.good Sample.plain (initial ∅)).1 = 1
  ∧ ¬ missing_index_fatal Sample.good Sample.plain (initial ∅).
Proof.
  repeat split; try reflexivity.
  intros (_ & H & _). vm_compute in H. discriminate.
Qed.

(** ** Pedigree and variant file with different individuals *)

(** C3 (as amended).  When the individuals of the family differ from those
    of the variant file, the run ends in an exception having done nothing
    but print: no worker, no printer, no scratch directory.  When the steps
    before the comparison return, that exception is the one of a bare
    [sys.exit()], after the three lines of the report: the exit status is
    0. *)
Theorem mismatch_exits_before_workers env a st fam head inds :
  get_family env (family_file a) (family_type a) = Ok fam →
  vcf_parser env (variant_file a) = Ok (head, inds) →
  individuals_differ fam inds = true →
  (∃ e out, annotate env a st = (Raise e, say out st))
  ∧ (∀ st1 st2,
       load_annotation env a st = (Ok tt, st1) →
       index_sources env a st1 = (Ok tt, st2) →
       annotate env a st = (Raise (SystemExit None), say (mismatch_report fam inds) st2)
       ∧ exit_status (annotate env a st).1 = 0).
Proof.
  intros Hfam Hvcf Hdiff. split.
  - destruct (annotate_course env a st)
      as [?|(fam' & head' & inds' & out & Hfam' & Hvcf' & Hsame & _)]; [done|].
    congruence.
  - intros st1 st2 Hload Hidx.
    assert (annotate env a st
            = (Raise (SystemExit None), say (mismatch_report fam inds) st2)) as ->; [|done].
    unfold annotate, annotate_from_family, bind, lift.
    rewrite Hload, Hfam, Hidx, Hvcf. simpl.
    by rewrite (check_individuals_differ _ _ _ Hdiff).
Qed.

Lemma mismatch_exits_before_workers_witness :
  (∃ e out, annotate Sample.mismatch Sample.plain (initial Sample.with_index)
            = (Raise e, say out (initial Sample.with_index)))
  ∧ annotate Sample.mismatch Sample.plain (initial Sample.with_index)
    = (Raise (SystemExit None),
       say (mismatch_report TestRecessive.recessive_family ["1"; "2"])
           (initial Sample.with_index))
  ∧ exit_status (annotate Sample.mismatch Sample.plain (initial Sample.with_index)).1 = 0.
Proof.
  assert (get_family Sample.mismatch (family_file Sample.plain) (family_type Sample.plain)
          = Ok TestRecessive.recessive_family) as Hfam by reflexivity.
  assert (vcf_parser Sample.mismatch (variant_file Sample.plain)
          = Ok (Sample.header, ["1"; "2"])) as Hvcf by reflexivity.
  assert (individuals_differ TestRecessive.recessive_family ["1"; "2"] = true) as Hdiff
    by reflexivity.
  destruct (mismatch_exits_before_workers Sample.mismatch Sample.plain
              (initial Sample.with_index) _ _ _ Hfam Hvcf Hdiff) as [Hstop Hexit].
  split; [exact Hstop|].
  apply (Hexit (initial Sample.with_index) (initial Sample.with_index)); reflexivity.
Defined.

(** A pedigree with individuals 2, 1, 3 and a variant file with 1, 2: the
    run stops without a worker, with exit status 0. *)
Lemma mismatch_exit_status_0 :
  individuals_differ TestRecessive.recessive_family ["1"; "2"] = true
  ∧ (annotate Sample.mismatch Sample.plain (initial Sample.with_index)).1
    = Raise (SystemExit None)
  ∧ exit_status (annotate Sample.mismatch Sample.plain (initial Sample.with_index)).1 = 0
  ∧ ¬ mismatch_exits_1 Sample.mismatch Sample.plain (initial Sample.with_index).
Proof.
  repeat split; try reflexivity.
  intros [H _]. vm_compute in H. discriminate.
Qed.

(** ** The number of workers *)

Lemma num_model_checkers_constant env : num_model_checkers env = 1%nat.
Proof. reflexivity. Qed.

(** Every run that reaches the pipeline starts exactly one consumer,
    whatever [cpu_count()] answers. *)
Lemma run_pipeline_one_consumer env a head st :
  consumers_started (run_pipeline env a head st).2 = S (consumers_started st).
Proof.
  destruct (run_pipeline_raises env a head st) as (e & st' & H & _ & Hc & _).
  by rewrite H.
Qed.

(** C4.  The number of consumers a run starts does not follow the
    machine: every run that reaches the pipeline starts exactly one,
    [num_model_checkers] being set to 1.  On a machine with four processors
    the default of section 4.F, max(1, cpu_count*2 - 1), is seven workers;
    the run starts one. *)
Theorem workers_not_adapted_to_cpu_count :
  (∀ env a head st,
     consumers_started (run_pipeline env a head st).2 = S (consumers_started st))
  ∧ cpu_count Sample.good = 4%nat
  ∧ default_workers Sample.good = 7%nat
  ∧ num_model_checkers Sample.good = 1%nat
  ∧ consumers_started
      (annotate Sample.good Sample.plain (initial Sample.with_index)).2 = 1%nat.
Proof.
  split; [apply run_pipeline_one_consumer|].
  repeat split; reflexivity.
Qed.

(** ** The scratch directory *)

(** C5 (as amended).  The scratch directory is removed by the last
    statement of [annotate] and nowhere else: a run that ends in an
    exception has either stopped before the directory was made, having only
    printed, or has left the directory behind. *)
Theorem scratch_left_on_failure env a st e st' :
  annotate env a st = (Raise e, st') →
  (∃ out, st' = say out st) ∨ dirs st' = {[mkdtemp env]} ∪ dirs st.
Proof.
  intros Hrun.
  destruct (annotate_course env a st)
    as [(e' & out & H)|(fam & head & inds & out & _ & _ & _ & H)].
  - left. exists out. congruence.
  - right.
    destruct (run_pipeline_raises env a head (say out st)) as (e' & st1 & H' & Hd & _).
    rewrite H, H' in Hrun. by simplify_eq.
Qed.

Lemma scratch_left_on_failure_witness :
  (∃ out, (annotate Sample.worker_fails Sample.plain (initial Sample.with_index)).2
          = say out (initial Sample.with_index))
  ∨ dirs (annotate Sample.worker_fails Sample.plain (initial Sample.with_index)).2
    = {[mkdtemp Sample.worker_fails]} ∪ dirs (initial Sample.with_index).
Proof.
  apply (scratch_left_on_failure Sample.worker_fails Sample.plain
           (initial Sample.with_index) (LibraryError "not a variant line")).
  reflexivity.
Defined.

(** The annotator raises on a bad line: the run ends with that exception
    and the scratch directory is still there. *)
Lemma scratch_kept_when_annotator_raises :
  (annotate Sample.worker_fails Sample.plain (initial Sample.with_index)).1
  = Raise (LibraryError "not a variant line")
  ∧ ¬ scratch_removed Sample.worker_fails Sample.plain (initial Sample.with_index).
Proof.
  split; [reflexivity|].
  unfold scratch_removed. intros H. apply H.
  apply (bool_decide_unpack _). vm_compute. exact I.
Qed.

(** ** The header lines added by [add_metadata] *)

Lemma add_metadata_added head kwargs :
  original (add_metadata head kwargs) = original head
  ∧ added (add_metadata head kwargs)
    = added head
      ++ (if truthy (dict_get kwargs "vep" (VBool false)) then [] else [info_ANN])
      ++ [info_Comp; info_GM; info_MS]
      ++ (if truthy (dict_get kwargs "cadd_file" VNone)
             || truthy (dict_get kwargs "cadd_1000g" VNone)
          then [info_CADD] else [])
      ++ (if truthy (dict_get kwargs "thousand_g" VNone) then [info_1000G] else []).
Proof.
  unfold add_metadata.
  destruct (truthy (dict_get kwargs "vep" (VBool false))),
    (truthy (dict_get kwargs "cadd_file" VNone) || truthy (dict_get kwargs "cadd_1000g" VNone)),
    (truthy (dict_get kwargs "thousand_g" VNone)); simpl;
    (split; [reflexivity|]); rewrite <- ?app_assoc; simpl; by rewrite ?app_nil_r.
Qed.

Lemma make_kwargs_get a :
  dict_get (make_kwargs a) "vep" (VBool false) = VBool (vep a)
  ∧ dict_get (make_kwargs a) "cadd_file" VNone = of_path (cadd_file a)
  ∧ dict_get (make_kwargs a) "cadd_1000g" VNone = of_path (cadd_1000g a)
  ∧ dict_get (make_kwargs a) "thousand_g" VNone = of_path (thousand_g a).
Proof.
  unfold dict_get, make_kwargs. repeat split; reflexivity.
Qed.

(** C6 (as amended).  With the options of an [annotate] run as keyword
    arguments, [add_metadata] keeps the original header and appends: ANN
    exactly when [vep] is not set; Comp, GM and MS always; CADD exactly when
    [cadd_file] or [cadd_1000g] is given; 1000G_freq exactly when
    [thousand_g] is given. *)
Theorem add_metadata_lines head a :
  original (add_metadata head (make_kwargs a)) = original head
  ∧ added (add_metadata head (make_kwargs a))
    = added head
      ++ (if vep a then [] else [info_ANN])
      ++ [info_Comp; info_GM; info_MS]
      ++ (if given (cadd_file a) || given (cadd_1000g a) then [info_CADD] else [])
      ++ (if given (thousand_g a) then [info_1000G] else []).
Proof.
  destruct (add_metadata_added head (make_kwargs a)) as [Ho Ha].
  destruct (make_kwargs_get a) as (Hvep & Hc1 & Hc2 & Htg).
  split; [done|]. rewrite Ha, Hvep, Hc1, Hc2, Htg. reflexivity.
Qed.

(** With [--vep] the header gains Comp, GM and MS only. *)
Lemma vep_header_has_no_ANN :
  added_ids (add_metadata Sample.header (make_kwargs (Sample.args false true None None)))
  = ["Comp"; "GM"; "MS"]
  ∧ ¬ four_lines_and_optional Sample.header (Sample.args false true None None).
Proof.
  split; [reflexivity|].
  unfold four_lines_and_optional. vm_compute. discriminate.
Qed.

(** ** The files written by [build_annotation] *)

(** C7 (as amended).  When the feature file is parsed and both files can
    be opened, [build_annotation] writes the pickled gene trees at
    [os.path.join(outdir, 'genes.db')] and the pickled exon trees at
    [os.path.join(outdir, 'exons.db')], and touches no other file. *)
Theorem build_annotation_writes_db_files env v file type outdir padding st genes exons :
  annotation_parser env file type padding v = Ok (genes, exons) →
  writable env (path_join outdir "genes.db") = true →
  writable env (path_join outdir "exons.db") = true →
  ∃ st', build_annotation env v file type outdir padding st = (Ok tt, st')
    ∧ files st' = <[path_join outdir "exons.db" := exons]>
                    (<[path_join outdir "genes.db" := genes]> (files st))
    ∧ dirs st' = dirs st.
Proof.
  intros Hparse Hg He.
  unfold build_annotation, bind, when, lift, write_file. rewrite Hparse. simpl.
  destruct v; simpl; rewrite Hg; simpl; rewrite He; eexists; done.
Qed.

Lemma build_annotation_writes_db_files_witness :
  ∃ st', build_annotation Sample.good false "refGene.txt" "gene_pred" "out" 2 (initial ∅)
         = (Ok tt, st')
    ∧ files st' = <[path_join "out" "exons.db" := "exons"]>
                    (<[path_join "out" "genes.db" := "genes"]> (files (initial ∅)))
    ∧ dirs st' = dirs (initial ∅).
Proof.
  apply (build_annotation_writes_db_files Sample.good false "refGene.txt" "gene_pred" "out" 2
           (initial ∅) "genes" "exons"); reflexivity.
Defined.

(** Built into the directory [out], the blobs are [out/genes.db] and
    [out/exons.db]; there is no [out/genes] and no [out/exons]. *)
Lemma blobs_carry_db_suffix :
  (build_annotation Sample.good false "refGene.txt" "gene_pred" "out" 2 (initial ∅)).1 = Ok tt
  ∧ files (build_annotation Sample.good false "refGene.txt" "gene_pred" "out" 2 (initial ∅)).2
      !! "out/genes.db" = Some "genes"
  ∧ files (build_annotation Sample.good false "refGene.txt" "gene_pred" "out" 2 (initial ∅)).2
      !! "out/genes" = None
  ∧ ¬ blobs_at_genes_exons "out"
        (build_annotation Sample.good false "refGene.txt" "gene_pred" "out" 2 (initial ∅)).2.
Proof.
  repeat split; try reflexivity.
  intros [[x H] _]. vm_compute in H. discriminate.
Qed.

(** ** Errors caught by the script *)

(** C8 (as amended).  The script catches errors in two places.  When
    loading the index raises, a missing file is replaced by the one-line
    report and every other error propagates.  When [tabix_index] raises, an
    I/O error is printed in verbose mode and dropped without a trace
    otherwise, the step returning normally either way; every other error
    propagates. *)
Theorem caught_errors env :
  (∀ a st e st1,
     read_index env a st = (Raise e, st1) →
     load_annotation env a st
     = if is_FileNotFoundError e then (Ok tt, say [index_report] st1) else (Raise e, st1))
  ∧ (∀ f t v st e,
       tabix_index env f = Some e →
       t = "cadd" ∨ t = "vcf" →
       check_tabix_index env f t v st
       = if is_IOError e then (Ok tt, if v then say [str_exn e] st else st)
         else (Raise e, st)).
Proof.
  split.
  - intros a st e st1 H. unfold load_annotation, try_except. rewrite H.
    by destruct (is_FileNotFoundError e).
  - intros f t v st e H [-> | ->]; unfold check_tabix_index, try_except; simpl;
      rewrite H; simpl; by destruct (is_IOError e), v.
Qed.

Lemma caught_errors_witness :
  load_annotation Sample.good Sample.plain (initial ∅)
  = (Ok tt, say [index_report] (initial ∅))
  ∧ check_tabix_index Sample.tabix_fails "cadd.tsv.gz" "cadd" false (initial ∅)
    = (Ok tt, initial ∅).
Proof.
  split.
  - apply (proj1 (caught_errors Sample.good) Sample.plain (initial ∅)
             (FileNotFoundError "annotations/genes.db") (initial ∅)).
    reflexivity.
  - apply (proj2 (caught_errors Sample.tabix_fails) "cadd.tsv.gz" "cadd" false (initial ∅)
             (IOError "could not open cadd.tsv.gz")); [reflexivity | left; reflexivity].
Defined.

(** With verbose mode off, an I/O error of [tabix_index] leaves no trace:
    the step returns normally and nothing is printed. *)
Lemma tabix_error_dropped_when_quiet :
  tabix_index Sample.tabix_fails "cadd.tsv.gz" = Some (IOError "could not open cadd.tsv.gz")
  ∧ check_tabix_index Sample.tabix_fails "cadd.tsv.gz" "cadd" false (initial ∅)
    = (Ok tt, initial ∅)
  ∧ ¬ surfaced (initial ∅)
        (check_tabix_index Sample.tabix_fails "cadd.tsv.gz" "cadd" false (initial ∅)).
Proof.
  repeat split; try reflexivity.
  intros [[e H] | H]; [discriminate H | by apply H].
Qed.

(** ** The family of a run *)




(** The pedigree defines the families 2 (individual 7) and 1 (individuals
    2, 1, 3).  A variant file with the individuals of family 1 goes on to
    the pipeline; one with all four individuals of the pedigree file is
    turned away, individual 7 not being of the family that was taken. *)
Lemma other_families_are_not_compared :
  consumers_started (annotate Sample.two_families Sample.plain (initial Sample.with_index)).2
  = 1%nat
  ∧ annotate (Sample.env 4 [("2", Sample.second_family); ("1", TestRecessive.recessive_family)]
                None ["1"; "2"; "3"; "7"] (Ok ["1"]))
             Sample.plain (initial Sample.with_index)
    = (Raise (SystemExit None),
       say (mismatch_report TestRecessive.recessive_family ["1"; "2"; "3"; "7"])
           (initial Sample.with_index)).
Proof. split; reflexivity. Qed.


(** ** Where the header goes *)

Lemma append_newline l text : (l +:+ newline) +:+ text = l +:+ newline +:+ text.
Proof.
  induction l as [|c l IH]; [reflexivity|].
  change (String c l +:+ newline) with (String c (l +:+ newline)).
  change (String c (l +:+ newline) +:+ text) with (String c ((l +:+ newline) +:+ text)).
  by rewrite IH.
Qed.

(** The text written is the lines in order, each followed by a newline. *)
Lemma header_text_lines lines :
  header_text lines = foldr (λ line text, line +:+ newline +:+ text) "" lines.
Proof.
  unfold header_text. induction lines as [|l lines IH]; [reflexivity|].
  rewrite fmap_cons. cbn [foldr]. rewrite <- IH.
  destruct lines as [|l' lines]; [reflexivity|].
  rewrite fmap_cons. cbn [String.concat]. apply append_newline.
Qed.

(** C10.  Given a (non-empty) [outfile], [print_headers] does not look at
    [silent]: it opens the file for writing, and when that succeeds the
    file holds the header lines in order, each followed by a newline, and
    nothing of what it held before; nothing is printed.  Without [outfile]
    the header lines are printed unless [silent] is set, in which case
    nothing happens. *)
Theorem print_headers_outfile_or_stdout env head path silent st :
  path ≠ "" →
  print_headers env head (Some path) silent st
  = write_file env path
      (foldr (λ line text, line +:+ newline +:+ text) "" (print_header env head)) st
  ∧ (writable env path = true →
     print_headers env head (Some path) silent st
     = (Ok tt,
        mkState (<[path := foldr (λ line text, line +:+ newline +:+ text) ""
                                 (print_header env head)]> (files st))
                (dirs st) (stdout st) (consumers_started st) (printer_started st)))
  ∧ print_headers env head None silent st
    = (Ok tt, if silent then st else say (print_header env head) st).
Proof.
  intros Hpath.
  assert (truthy (of_path (Some path)) = true) as Ht.
  { simpl. apply negb_true_iff. by apply String.eqb_neq. }
  unfold print_headers. rewrite Ht, header_text_lines. simpl. repeat split.
  - intros Hw. unfold write_file. by rewrite Hw.
  - destruct silent; simpl; [done|]. apply for_each_print.
Qed.

Lemma print_headers_outfile_or_stdout_witness :
  print_headers Sample.good (mkHeader ["##fileformat=VCFv4.1"; "#CHROM"] [])
    (Some "out.vcf") true (initial (<["out.vcf" := "old content"]> ∅))
  = write_file Sample.good "out.vcf"
      ("##fileformat=VCFv4.1" +:+ newline +:+ "#CHROM" +:+ newline)
      (initial (<["out.vcf" := "old content"]> ∅))
  ∧ print_headers Sample.good (mkHeader ["##fileformat=VCFv4.1"; "#CHROM"] [])
      (Some "out.vcf") true (initial (<["out.vcf" := "old content"]> ∅))
    = (Ok tt, mkState (<["out.vcf" := "##fileformat=VCFv4.1" +:+ newline
                                      +:+ "#CHROM" +:+ newline]> ∅)
                      ∅ [] 0 false)
  ∧ print_headers Sample.good (mkHeader ["##fileformat=VCFv4.1"; "#CHROM"] [])
      None true (initial (<["out.vcf" := "old content"]> ∅))
    = (Ok tt, initial (<["out.vcf" := "old content"]> ∅)).
Proof.
  assert ("out.vcf" ≠ "") as Hpath by discriminate.
  destruct (print_headers_outfile_or_stdout Sample.good
              (mkHeader ["##fileformat=VCFv4.1"; "#CHROM"] []) "out.vcf" true
              (initial (<["out.vcf" := "old content"]> ∅)) Hpath) as (Hsame & Hfile & Hnone).
  split; [exact Hsame|]. split; [|exact Hnone].
  rewrite (Hfile eq_refl). reflexivity.
Defined.

(** ** The recessive models with a missing parent call *)

Section Recessive.
Import GeneticModels.

(** The flags of a variant are a function of its columns. *)
Lemma flags_fields fam v v' : fields v = fields v' → flags fam v = flags fam v'.
Proof. destruct v, v'; simpl; intros ->; reflexivity. Qed.

Lemma alter_classify_lookup fam k0 (store : gmap string Variant) k v :
  store !! k = Some v →
  ∃ v', alter (classify fam) k0 store !! k = Some v'
    ∧ fields v' = fields v
    ∧ (k = k0 ∨ Inheritance_model v = flags fam v → Inheritance_model v' = flags fam v).
Proof.
  intros H. destruct (decide (k0 = k)) as [->|Hne].
  - exists (classify fam v). rewrite lookup_alter_eq, H. by repeat split.
  - exists v. rewrite lookup_alter_ne by done. repeat split; [done|].
    by intros [->|?].
Qed.

(** Classifying the variants of a gene keeps every variant of the store,
    with its columns, and leaves the flags of the model on each variant
    of the gene; flags set earlier stay. *)
Lemma check_gene_lookup fam keys (store : gmap string Variant) k v :
  store !! k = Some v →
  ∃ v', check_gene fam keys store !! k = Some v'
    ∧ fields v' = fields v
    ∧ (k ∈ keys ∨ Inheritance_model v = flags fam v → Inheritance_model v' = flags fam v).
Proof.
  unfold check_gene. revert store v.
  induction keys as [|k0 keys IH]; intros store v H; simpl.
  - exists v. repeat split; [done|]. intros [Hin|?]; [|done]. by apply elem_of_nil in Hin.
  - destruct (alter_classify_lookup fam k0 store k v H) as (v1 & H1 & Hf1 & Hm1).
    destruct (IH _ _ H1) as (v2 & H2 & Hf2 & Hm2).
    exists v2. repeat split; [done | congruence |].
    intros Hk. rewrite (flags_fields fam v v1) by done.
    apply Hm2. rewrite <- (flags_fields fam v v1) by done.
    destruct Hk as [[->|Hin]%elem_of_cons|Hset]; auto.
Qed.

Lemma check_genetic_models_lookup batch fam (store : gmap string Variant) k v :
  store !! k = Some v →
  ∃ v', check_genetic_models batch fam store !! k = Some v'
    ∧ fields v' = fields v
    ∧ (k ∈ concat batch.*2 ∨ Inheritance_model v = flags fam v →
       Inheritance_model v' = flags fam v).
Proof.
  unfold check_genetic_models. revert store v.
  induction batch as [|[gene keys] batch IH]; intros store v H; simpl.
  - exists v. repeat split; [done|]. intros [Hin|?]; [|done]. by apply elem_of_nil in Hin.
  - destruct (check_gene_lookup fam keys store k v H) as (v1 & H1 & Hf1 & Hm1).
    destruct (IH _ _ H1) as (v2 & H2 & Hf2 & Hm2).
    exists v2. repeat split; [done | congruence |].
    intros Hk. rewrite (flags_fields fam v v1) by done.
    apply Hm2. rewrite <- (flags_fields fam v v1) by done.
    destruct Hk as [[Hin|Hin]%elem_of_app|Hset]; auto.
Qed.

(** The two recessive models on the call pattern hom_alt child, missing
    father, het mother. *)
Lemma flags_missing_father fam v child :
  affected_child_of_unaffected_parents fam child →
  genotype_of v (ind child) = hom_alt →
  genotype_of v (father child) = missing →
  genotype_of v (mother child) = het →
  holds AR_hom_for fam v = true ∧ holds AR_hom_denovo_for fam v = true.
Proof.
  intros (Hsick & Hf & Hm & Hrest) Hc Hfa Hmo.
  assert (carries_hom_alt fam v child = true) as Hcarry.
  { unfold carries_hom_alt, no_unaffected_hom_alt. rewrite Hc. simpl.
    apply forallb_forall. intros i Hi%list_elem_of_In.
    rewrite Forall_forall in Hrest. specialize (Hrest i Hi).
    destruct (unaffected i); [|done].
    destruct (Hrest eq_refl) as [-> | ->]; by rewrite ?Hfa, ?Hmo. }
  assert (parents child = [father child; mother child]) as Hparents.
  { unfold parents. rewrite filter_cons_True by done.
    rewrite filter_cons_True by done. done. }
  unfold holds. rewrite Hsick. simpl.
  unfold AR_hom_for, AR_hom_denovo_for. rewrite Hcarry, Hparents. simpl.
  by rewrite Hc, Hfa, Hmo.
Qed.

(** C1.  In a family whose affected child has an unaffected father and
    an unaffected mother, a variant of the batch where the child is
    hom_alt, the call of the father is missing and the mother is het comes
    out of the classifier with AR_hom and AR_hom_denovo both true. *)
Theorem missing_parent_keeps_both_recessive_models
    batch fam (store : gmap string Variant) k v child :
  store !! k = Some v →
  k ∈ concat batch.*2 →
  affected_child_of_unaffected_parents fam child →
  genotype_of v (ind child) = hom_alt →
  genotype_of v (father child) = missing →
  genotype_of v (mother child) = het →
  model_flag (check_genetic_models batch fam store) k "AR_hom" = Some true
  ∧ model_flag (check_genetic_models batch fam store) k "AR_hom_denovo" = Some true.
Proof.
  intros Hk Hin Hfam Hc Hfa Hmo.
  destruct (check_genetic_models_lookup batch fam store k v Hk) as (v' & Hv' & _ & Hflags).
  destruct (flags_missing_father fam v child Hfam Hc Hfa Hmo) as [Har Hdn].
  unfold model_flag. rewrite Hv'. simpl. rewrite Hflags by auto.
  unfold flags. rewrite Har, Hdn. split; reflexivity.
Qed.

Lemma missing_parent_keeps_both_recessive_models_witness :
  model_flag TestRecessive.classified "1_10_C_T" "AR_hom" = Some true
  ∧ model_flag TestRecessive.classified "1_10_C_T" "AR_hom_denovo" = Some true.
Proof.
  apply (missing_parent_keeps_both_recessive_models TestRecessive.batch
           TestRecessive.recessive_family TestRecessive.store "1_10_C_T"
           TestRecessive.recessive_missing TestRecessive.sick_son).
  - reflexivity.
  - apply (bool_decide_unpack _). vm_compute. exact I.
  - repeat split; try discriminate.
    apply (bool_decide_unpack _). vm_compute. exact I.
  - reflexivity.
  - reflexivity.
  - reflexivity.
Defined.

(** The expectations of the test suite on the two recessive flags:
    [test_recessive_variant], [test_recessive_dn], [test_recessive_missing]
    and [test_not_recessive]. *)
Lemma test_recessive_flags :
  Inheritance_model <$> TestRecessive.classified !! "1_5_A_C"
    = Some (<["AR_hom" := true]> $ <["AR_hom_denovo" := false]> ∅)
  ∧ Inheritance_model <$> TestRecessive.classified !! "1_7_G_T"
    = Some (<["AR_hom" := false]> $ <["AR_hom_denovo" := true]> ∅)
  ∧ Inheritance_model <$> TestRecessive.classified !! "1_10_C_T"
    = Some (<["AR_hom" := true]> $ <["AR_hom_denovo" := true]> ∅)
  ∧ Inheritance_model <$> TestRecessive.classified !! "1_15_C_T"
    = Some (<["AR_hom" := false]> $ <["AR_hom_denovo" := false]> ∅).
Proof. repeat split; vm_compute; reflexivity. Qed.

(** Reading the de-novo form with the parental condition of AR_hom kept
    gives the same answer on the variant with the missing call. *)
Lemma strict_reading_agrees_on_missing_father :
  holds AR_hom_denovo_strict_for TestRecessive.recessive_family
        TestRecessive.recessive_missing = true.
Proof. reflexivity. Qed.

End Recessive.

(** * Further properties of the script *)

(** ** The comparison of the individuals, lines 265-270 *)

Lemma individuals_differ_false fam inds :
  individuals_differ fam inds = false ↔ ∀ x, x ∈ individual_keys fam ↔ x ∈ inds.
Proof.
  unfold individuals_differ. rewrite bool_decide_eq_false.
  split.
  - intros H x. apply dec_stable in H.
    rewrite <- (elem_of_list_to_set (C := gset string) x (individual_keys fam)).
    rewrite <- (elem_of_list_to_set (C := gset string) x inds).
    by rewrite H.
  - intros H Hne. apply Hne. apply set_eq. intros x.
    by rewrite !elem_of_list_to_set.
Qed.

(** X1.  The pedigree and the variant file pass the comparison exactly
    when they name the same individuals, in whatever order and however
    often; the step then does nothing.  An individual of the variant file
    that the pedigree lacks fails the comparison as much as the converse. *)
Theorem individuals_compared_as_sets fam inds st :
  (individuals_differ fam inds = false ↔ ∀ x, x ∈ individual_keys fam ↔ x ∈ inds)
  ∧ (individuals_differ fam inds = false → check_individuals fam inds st = (Ok tt, st))
  ∧ (∀ x, x ∈ inds → x ∉ individual_keys fam →
       check_individuals fam inds st
       = (Raise (SystemExit None), say (mismatch_report fam inds) st)).
Proof.
  split; [apply individuals_differ_false|]. split.
  - intros H. unfold check_individuals. by rewrite H.
  - intros x Hin Hnot. apply check_individuals_differ.
    destruct (individuals_differ fam inds) eqn:Hd; [done|].
    pose proof (proj1 (individuals_differ_false fam inds) Hd) as Hsame.
    by apply Hsame in Hin.
Qed.

Lemma individuals_compared_as_sets_witness :
  check_individuals TestRecessive.recessive_family ["3"; "1"; "2"; "1"] (initial ∅)
  = (Ok tt, initial ∅)
  ∧ check_individuals TestRecessive.recessive_family ["1"; "2"; "3"; "4"] (initial ∅)
    = (Raise (SystemExit None),
       say (mismatch_report TestRecessive.recessive_family ["1"; "2"; "3"; "4"]) (initial ∅)).
Proof.
  split.
  - apply (proj1 (proj2 (individuals_compared_as_sets TestRecessive.recessive_family
                           ["3"; "1"; "2"; "1"] (initial ∅)))).
    reflexivity.
  - apply (proj2 (proj2 (individuals_compared_as_sets TestRecessive.recessive_family
                           ["1"; "2"; "3"; "4"] (initial ∅))) "4").
    + apply (bool_decide_unpack _). vm_compute. exact I.
    + apply (bool_decide_unpack _). vm_compute. exact I.
Defined.

(** ** Where every run ends *)

Lemma say_files out st : files (say out st) = files st.
Proof. reflexivity. Qed.

(** X2.  No run of [annotate] returns normally, and none gets as far as
    writing the header: every run ends in an exception with the files the
    script writes itself as they were. *)
Theorem annotate_never_completes env a st :
  ∃ e st', annotate env a st = (Raise e, st') ∧ files st' = files st.
Proof.
  destruct (annotate_course env a st)
    as [(e & out & H)|(fam & head & inds & out & _ & _ & _ & H)].
  - exists e, (say out st). by rewrite H.
  - destruct (run_pipeline_raises env a head (say out st))
      as (e & st' & H' & _ & _ & _ & Hf).
    exists e, st'. by rewrite H, H', Hf.
Qed.



(** ** Paths *)

Lemma append_cons c s t : String c s +:+ t = String c (s +:+ t).
Proof. reflexivity. Qed.

Lemma append_assoc s t u : (s +:+ t) +:+ u = s +:+ (t +:+ u).
Proof.
  induction s as [|c s IH]; [reflexivity|].
  by rewrite !append_cons, IH.
Qed.

Lemma append_nil_r s : s +:+ "" = s.
Proof. induction s as [|c s IH]; [reflexivity|]. by rewrite append_cons, IH. Qed.

Lemma endswith_sep_cons c s : s ≠ "" → endswith_sep (String c s) = endswith_sep s.
Proof. by destruct s. Qed.

Lemma append_sep_nonempty s : s +:+ "/" ≠ "".
Proof. by destruct s. Qed.

Lemma endswith_sep_snoc s : endswith_sep (s +:+ "/") = true.
Proof.
  induction s as [|c s IH]; [reflexivity|].
  rewrite append_cons, endswith_sep_cons; [done | apply append_sep_nonempty].
Qed.

(** A relative second component is appended, after one separator unless
    the first component is empty or ends in one. *)
Lemma path_join_relative a b :
  startswith_sep b = false →
  path_join a b = if String.eqb a "" || endswith_sep a then a +:+ b else a +:+ "/" +:+ b.
Proof. intros H. unfold path_join. by rewrite H. Qed.

Lemma path_join_inj a b1 b2 :
  startswith_sep b1 = false → startswith_sep b2 = false →
  path_join a b1 = path_join a b2 → b1 = b2.
Proof.
  intros H1 H2. rewrite !path_join_relative by done.
  destruct (String.eqb a "" || endswith_sep a); intros H.
  - by apply (inj (String.app a)) in H.
  - apply (inj (String.app a)) in H. by simplify_eq.
Qed.

Lemma path_join_trailing_sep a b :
  a ≠ "" → endswith_sep a = false → path_join (a +:+ "/") b = path_join a b.
Proof.
  intros Ha He. unfold path_join. destruct (startswith_sep b); [done|].
  rewrite endswith_sep_snoc, orb_true_r, He, orb_false_r.
  apply String.eqb_neq in Ha. rewrite Ha. apply append_assoc.
Qed.

(** ** What a build leaves behind, lines 143-158 *)

(** X4.  [build_annotation] parses the feature file before it opens
    anything: when the parser raises, that error ends the build and no
    file is touched.  When [genes.db] cannot be opened, the build ends in
    an I/O error and nothing is written either.  When [genes.db] has been
    written and [exons.db] cannot be opened, the build ends in that I/O
    error and leaves the new [genes.db] behind without its [exons.db]. *)
Theorem build_annotation_failures env v file type outdir padding st :
  (∀ e, annotation_parser env file type padding v = Raise e →
        ∃ st', build_annotation env v file type outdir padding st = (Raise e, st')
          ∧ files st' = files st)
  ∧ (∀ genes exons,
       annotation_parser env file type padding v = Ok (genes, exons) →
       writable env (path_join outdir "genes.db") = false →
       ∃ e st', build_annotation env v file type outdir padding st = (Raise e, st')
         ∧ is_IOError e = true
         ∧ files st' = files st)
  ∧ (∀ genes exons,
       annotation_parser env file type padding v = Ok (genes, exons) →
       writable env (path_join outdir "genes.db") = true →
       writable env (path_join outdir "exons.db") = false →
       ∃ e st', build_annotation env v file type outdir padding st = (Raise e, st')
         ∧ is_IOError e = true
         ∧ files st' = <[path_join outdir "genes.db" := genes]> (files st)
         ∧ files st' !! path_join outdir "exons.db"
           = files st !! path_join outdir "exons.db").
Proof.
  repeat split.
  - intros e H. unfold build_annotation, bind, when, lift. rewrite H.
    destruct v; by eexists.
  - intros genes exons H Hg. unfold build_annotation, bind, when, lift, write_file.
    rewrite H. destruct v; simpl; rewrite Hg; by eexists _, _.
  - intros genes exons H Hg He. unfold build_annotation, bind, when, lift, write_file.
    rewrite H.
    assert (path_join outdir "genes.db" ≠ path_join outdir "exons.db") as Hne.
    { intros Heq. by apply path_join_inj in Heq. }
    destruct v; simpl; rewrite Hg; simpl; rewrite He; eexists _, _;
      (split; [reflexivity|]); simpl; by rewrite lookup_insert_ne.
Qed.

Lemma build_annotation_failures_witness :
  (∃ st', build_annotation Scenario.parser_rejects true "refGene.txt" "gene_pred" "out" 2
            (initial ∅)
          = (Raise (LibraryError "unknown annotation type"), st')
     ∧ files st' = files (initial ∅))
  ∧ (∃ e st', build_annotation (Scenario.env (λ _, false) (λ _, None)) false
                "refGene.txt" "gene_pred" "out" 2 (initial ∅)
              = (Raise e, st')
       ∧ is_IOError e = true
       ∧ files st' = files (initial ∅))
  ∧ (∃ e st', build_annotation Scenario.exons_read_only false
                "refGene.txt" "gene_pred" "out" 2 (initial ∅)
              = (Raise e, st')
       ∧ is_IOError e = true
       ∧ files st' = <[path_join "out" "genes.db" := "genes"]> (files (initial ∅))
       ∧ files st' !! path_join "out" "exons.db"
         = files (initial ∅) !! path_join "out" "exons.db").
Proof.
  split; [|split].
  - apply (proj1 (build_annotation_failures Scenario.parser_rejects true
                    "refGene.txt" "gene_pred" "out" 2 (initial ∅))).
    reflexivity.
  - apply (proj1 (proj2 (build_annotation_failures (Scenario.env (λ _, false) (λ _, None))
                           false "refGene.txt" "gene_pred" "out" 2 (initial ∅)))
             "genes" "exons"); reflexivity.
  - apply (proj2 (proj2 (build_annotation_failures Scenario.exons_read_only
                           false "refGene.txt" "gene_pred" "out" 2 (initial ∅)))
             "genes" "exons"); reflexivity.
Defined.

Lemma build_annotation_ok env v file type outdir padding st genes exons :
  annotation_parser env file type padding v = Ok (genes, exons) →
  writable env (path_join outdir "genes.db") = true →
  writable env (path_join outdir "exons.db") = true →
  ∃ st', build_annotation env v file type outdir padding st = (Ok tt, st')
    ∧ files st' = <[path_join outdir "exons.db" := exons]>
                    (<[path_join outdir "genes.db" := genes]> (files st)).
Proof.
  intros Hparse Hg He.
  unfold build_annotation, bind, when, lift, write_file. rewrite Hparse. simpl.
  destruct v; simpl; rewrite Hg; simpl; rewrite He; by eexists.
Qed.

(** X5.  What [build_annotation] writes into a directory is what
    [annotate] looks for in it: after a build into the annotation
    directory of a run, with blobs that [pickle.load] accepts, the index is
    not missing and loading it is silent. *)
Theorem built_index_is_found env v file type padding a st genes exons :
  annotation_parser env file type padding v = Ok (genes, exons) →
  writable env (path_join (annotation_dir a) "genes.db") = true →
  writable env (path_join (annotation_dir a) "exons.db") = true →
  unpickle env genes = None →
  unpickle env exons = None →
  ∃ st', build_annotation env v file type (annotation_dir a) padding st = (Ok tt, st')
    ∧ index_missing env a st' = false
    ∧ load_annotation env a st' = (Ok tt, st').
Proof.
  intros Hparse Hwg Hwe Hg He.
  destruct (build_annotation_ok env v file type (annotation_dir a)
              padding st genes exons Hparse Hwg Hwe) as (st' & Hrun & Hfiles).
  assert (path_join (annotation_dir a) "exons.db"
          ≠ path_join (annotation_dir a) "genes.db") as Hne.
  { intros Heq. by apply path_join_inj in Heq. }
  assert (files st' !! path_join (annotation_dir a) "genes.db" = Some genes) as Hlg.
  { rewrite Hfiles, lookup_insert_ne by done. apply lookup_insert_eq. }
  assert (files st' !! path_join (annotation_dir a) "exons.db" = Some exons) as Hle.
  { rewrite Hfiles. apply lookup_insert_eq. }
  exists st'. split; [done|]. split.
  - unfold index_missing. rewrite Hlg, Hg, Hle. reflexivity.
  - unfold load_annotation, read_index, try_except, bind, read_file, lift_unit.
    rewrite Hlg, Hg. simpl. rewrite Hle, He. reflexivity.
Qed.

Lemma built_index_is_found_witness :
  ∃ st', build_annotation Sample.good false "refGene.txt" "gene_pred"
           (annotation_dir Sample.plain) 2 (initial ∅) = (Ok tt, st')
    ∧ index_missing Sample.good Sample.plain st' = false
    ∧ load_annotation Sample.good Sample.plain st' = (Ok tt, st').
Proof.
  apply (built_index_is_found Sample.good false "refGene.txt" "gene_pred" 2 Sample.plain
           (initial ∅) "genes" "exons"); reflexivity.
Defined.

(** X6.  A separator at the end of the output directory makes no
    difference: the build into [outdir/] is the build into [outdir]. *)
Theorem build_annotation_trailing_separator env file type outdir padding st :
  outdir ≠ "" →
  endswith_sep outdir = false →
  build_annotation env false file type (outdir +:+ "/") padding st
  = build_annotation env false file type outdir padding st.
Proof.
  intros Hne He. unfold build_annotation.
  by rewrite !(path_join_trailing_sep outdir) by done.
Qed.

Lemma build_annotation_trailing_separator_witness :
  build_annotation Sample.good false "refGene.txt" "gene_pred" ("out" +:+ "/") 2 (initial ∅)
  = build_annotation Sample.good false "refGene.txt" "gene_pred" "out" 2 (initial ∅).
Proof.
  apply (build_annotation_trailing_separator Sample.good "refGene.txt" "gene_pred" "out" 2
           (initial ∅)); [discriminate | reflexivity].
Defined.

(** ** Ensuring the tabix indexes, lines 70-84 and 249-260 *)








(** ** A corrupt index *)

(** X9.  Unlike a missing index file, one that [pickle.load] rejects is
    fatal: the run ends in that error before the pedigree is read, with
    nothing printed.  An index that is complete and loads is passed over
    in silence. *)
Theorem corrupt_index_is_fatal env a st :
  (∀ f e, files st !! path_join (annotation_dir a) "genes.db" = Some f →
          unpickle env f = Some e →
          is_FileNotFoundError e = false →
          annotate env a st = (Raise e, st))
  ∧ (∀ f g, files st !! path_join (annotation_dir a) "genes.db" = Some f →
            files st !! path_join (annotation_dir a) "exons.db" = Some g →
            unpickle env f = None → unpickle env g = None →
            load_annotation env a st = (Ok tt, st)).
Proof.
  split.
  - intros f e Hf Hu He.
    unfold annotate, bind at 1, load_annotation, read_index, try_except, bind, read_file.
    rewrite Hf. unfold lift_unit. rewrite Hu. unfold raise. by rewrite He.
  - intros f g Hf Hg Huf Hug.
    unfold load_annotation, read_index, try_except, bind, read_file, lift_unit.
    rewrite Hf, Huf. simpl. by rewrite Hg, Hug.
Qed.

Lemma corrupt_index_is_fatal_witness :
  annotate Scenario.rejects_garbage Sample.plain (initial Scenario.corrupt_index)
  = (Raise (LibraryError "invalid load key"), initial Scenario.corrupt_index)
  ∧ load_annotation Sample.good Sample.plain (initial Sample.with_index)
    = (Ok tt, initial Sample.with_index).
Proof.
  split.
  - apply (proj1 (corrupt_index_is_fatal Scenario.rejects_garbage Sample.plain
                    (initial Scenario.corrupt_index)) "garbage"); reflexivity.
  - apply (proj2 (corrupt_index_is_fatal Sample.good Sample.plain
                    (initial Sample.with_index)) "genes" "exons"); reflexivity.
Defined.

(** ** The spill files of a chromosome, lines 331-335 *)

Lemma before_underscore_clean s : has_underscore (before_underscore s) = false.
Proof.
  induction s as [|c s IH]; [reflexivity|]. simpl.
  destruct (Ascii.eqb c "_") eqn:Hc; [reflexivity|]. simpl. by rewrite Hc.
Qed.

Lemma before_underscore_prefix chrom rest :
  has_underscore chrom = false → before_underscore (chrom +:+ "_" +:+ rest) = chrom.
Proof.
  induction chrom as [|c chrom IH]; [reflexivity|]. cbn [has_underscore].
  intros [Hc Hrest]%orb_false_iff.
  rewrite append_cons. cbn [before_underscore]. rewrite Hc. by rewrite IH.
Qed.

(** X11.  A spill file named after a chromosome, an underscore and
    anything else is picked up for that chromosome and for no other: the
    name is cut at its first underscore and compared as a whole, so
    chromosome 1 does not take the files of chromosome 10. *)
Theorem spill_file_belongs_to_its_chromosome chrom rest other :
  has_underscore chrom = false →
  String.eqb (before_underscore (chrom +:+ "_" +:+ rest)) other = true ↔ other = chrom.
Proof.
  intros H. rewrite before_underscore_prefix by done.
  rewrite String.eqb_eq. split; congruence.
Qed.

Lemma spill_file_belongs_to_its_chromosome_witness :
  String.eqb (before_underscore ("10" +:+ "_" +:+ "variants")) "1" = true ↔ "1" = "10".
Proof.
  apply (spill_file_belongs_to_its_chromosome "10" "variants" "1"). reflexivity.
Defined.

Lemma for_each_app {A} (l1 l2 : list A) (body : A → M unit) st :
  for_each (l1 ++ l2) body st = (for_each l1 body ;;; for_each l2 body) st.
Proof.
  revert st. induction l1 as [|x l1 IH]; intros st; simpl; [reflexivity|].
  unfold bind. destruct (body x st) as [[[]|e] st1]; [|reflexivity].
  rewrite IH. reflexivity.
Qed.

Lemma sort_one_chromosome env temp_dir chromosome (temp_files : list string) st :
  for_each temp_files (λ temp_file,
    if String.eqb (before_underscore temp_file) chromosome
    then lift_unit (file_sort env (path_join temp_dir temp_file))
    else ret tt) st
  = for_each (path_join temp_dir
                <$> filter (λ temp_file, before_underscore temp_file = chromosome) temp_files)
             (λ path, lift_unit (file_sort env path)) st.
Proof.
  revert st. induction temp_files as [|f l IH]; intros st; [reflexivity|].
  simpl. destruct (String.eqb_spec (before_underscore f) chromosome) as [Heq|Hne].
  - rewrite filter_cons_True by done. simpl. unfold bind.
    destruct (lift_unit (file_sort env (path_join temp_dir f)) st) as [[[]|e] st1];
      [apply IH | reflexivity].
  - rewrite filter_cons_False by done. unfold bind, ret. apply IH.
Qed.

Lemma sort_chromosomes_flat env temp_dir chromosome_list st :
  sort_chromosomes env temp_dir chromosome_list st
  = for_each (sorted_paths env temp_dir chromosome_list)
             (λ path, lift_unit (file_sort env path)) st.
Proof.
  unfold sort_chromosomes, sorted_paths. revert st.
  induction chromosome_list as [|c l IH]; intros st; [reflexivity|].
  simpl. rewrite for_each_app. unfold bind.
  rewrite sort_one_chromosome. unfold spill_files_of.
  destruct (for_each _ _ st) as [[[]|e] st1]; [apply IH | reflexivity].
Qed.

Lemma for_each_sorts env (paths : list string) st :
  (∀ path, path ∈ paths → file_sort env path = None) →
  for_each paths (λ path, lift_unit (file_sort env path)) st = (Ok tt, st).
Proof.
  induction paths as [|p paths IH]; intros H; [reflexivity|].
  simpl. unfold bind. rewrite (H p) by apply list_elem_of_here. simpl.
  apply IH. intros path Hin. apply H. by apply list_elem_of_further.
Qed.

(** X12.  The sorting loop hands to [FileSort], chromosome after
    chromosome and in the order of [os.listdir], exactly the spill files
    whose name up to the first underscore is the chromosome: the two nested
    loops are one pass over that list of paths.  The pass changes nothing
    of the state; it returns when every one of these sorts does, and the
    first sort that raises ends it with that error. *)
Theorem sort_chromosomes_paths env temp_dir chromosome_list st :
  sort_chromosomes env temp_dir chromosome_list st
  = for_each (sorted_paths env temp_dir chromosome_list)
             (λ path, lift_unit (file_sort env path)) st
  ∧ (sort_chromosomes env temp_dir chromosome_list st).2 = st
  ∧ ((∀ path, path ∈ sorted_paths env temp_dir chromosome_list → file_sort env path = None) →
     sort_chromosomes env temp_dir chromosome_list st = (Ok tt, st))
  ∧ (∀ before path after e,
       sorted_paths env temp_dir chromosome_list = before ++ path :: after →
       (∀ p, p ∈ before → file_sort env p = None) →
       file_sort env path = Some e →
       sort_chromosomes env temp_dir chromosome_list st = (Raise e, st)).
Proof.
  rewrite sort_chromosomes_flat. split; [reflexivity|]. split; [|split].
  - generalize (sorted_paths env temp_dir chromosome_list). intros paths.
    induction paths as [|p paths IH]; [reflexivity|].
    simpl. unfold bind. by destruct (file_sort env p).
  - apply for_each_sorts.
  - intros before path after e -> Hbefore Hpath.
    rewrite for_each_app. unfold bind.
    rewrite (for_each_sorts env before st Hbefore). simpl.
    unfold bind. by rewrite Hpath.
Qed.

Lemma sort_chromosomes_paths_witness :
  sort_chromosomes Sample.good "/tmp/tmpk3x9" ["1"] (initial ∅) = (Ok tt, initial ∅)
  ∧ sort_chromosomes Scenario.spill_files "/tmp/tmpk3x9" ["10"; "1"] (initial ∅)
    = (Raise (LibraryError "sort failed"), initial ∅).
Proof.
  split.
  - apply (proj1 (proj2 (proj2 (sort_chromosomes_paths Sample.good "/tmp/tmpk3x9" ["1"]
                                  (initial ∅))))).
    reflexivity.
  - apply (proj2 (proj2 (proj2 (sort_chromosomes_paths Scenario.spill_files "/tmp/tmpk3x9"
                                  ["10"; "1"] (initial ∅))))
             [] "/tmp/tmpk3x9/10_variants" ["/tmp/tmpk3x9/1_variants"]).
    + reflexivity.
    + intros p Hp. by apply elem_of_nil in Hp.
    + reflexivity.
Defined.

Lemma spill_files_of_underscore env temp_dir chromosome :
  has_underscore chromosome = true → spill_files_of env temp_dir chromosome = [].
Proof.
  intros H. unfold spill_files_of.
  induction (listdir env temp_dir) as [|f fs IH]; [reflexivity|].
  rewrite filter_cons_False; [exact IH|].
  intros Heq. pose proof (before_underscore_clean f) as Hclean.
  rewrite Heq in Hclean. congruence.
Qed.

(** X13.  A chromosome with an underscore in its name, as unplaced
    contigs have, never gets a spill file sorted: no file name cut at its
    first underscore can equal it, so the loop passes over it without
    calling [FileSort], whatever the scratch directory holds. *)
Theorem underscore_chromosomes_are_skipped env temp_dir chromosome_list st :
  Forall (λ chromosome, has_underscore chromosome = true) chromosome_list →
  sorted_paths env temp_dir chromosome_list = []
  ∧ sort_chromosomes env temp_dir chromosome_list st = (Ok tt, st).
Proof.
  intros H.
  assert (sorted_paths env temp_dir chromosome_list = []) as Hnone.
  { unfold sorted_paths. induction H as [|c l Hc _ IH]; [reflexivity|].
    rewrite fmap_cons. cbn [concat]. rewrite IH, spill_files_of_underscore by done.
    reflexivity. }
  split; [done|]. by rewrite sort_chromosomes_flat, Hnone.
Qed.

Lemma underscore_chromosomes_are_skipped_witness :
  sorted_paths Scenario.spill_files "/tmp/tmpk3x9" ["GL000207_random"] = []
  ∧ sort_chromosomes Scenario.spill_files "/tmp/tmpk3x9" ["GL000207_random"] (initial ∅)
    = (Ok tt, initial ∅).
Proof.
  apply (underscore_chromosomes_are_skipped Scenario.spill_files "/tmp/tmpk3x9"
           ["GL000207_random"] (initial ∅)).
  repeat constructor.
Defined.

(** ** The default annotation directory, line 99 *)

Section DefaultAnnotations.
Import PosixPath.

Lemma has_sep_endswith s : has_sep s = false → endswith_sep s = false.
Proof.
  induction s as [|c s IH]; [reflexivity|]. cbn [has_sep].
  intros [Hc Hs]%orb_false_iff.
  destruct s as [|c' s]; [exact Hc|].
  rewrite endswith_sep_cons by done. by apply IH.
Qed.

Lemma endswith_sep_app s t : t ≠ "" → endswith_sep (s +:+ t) = endswith_sep t.
Proof.
  intros Ht. induction s as [|c s IH]; [reflexivity|].
  rewrite append_cons, endswith_sep_cons; [exact IH|].
  destruct s; [exact Ht | discriminate].
Qed.

Lemma all_sep_endswith s : s ≠ "" → all_sep s = true → endswith_sep s = true.
Proof.
  induction s as [|c s IH]; [done|]. intros _. cbn [all_sep].
  intros [Hc Hs]%andb_true_iff.
  destruct s as [|c' s]; [exact Hc|].
  rewrite endswith_sep_cons by done. by apply IH.
Qed.

Lemma all_sep_app s t : all_sep (s +:+ t) = all_sep s && all_sep t.
Proof.
  induction s as [|c s IH]; [reflexivity|].
  rewrite append_cons. cbn [all_sep]. by rewrite IH, andb_assoc.
Qed.

Lemma not_all_sep s : s ≠ "" → endswith_sep s = false → all_sep s = false.
Proof.
  intros Hne He. destruct (all_sep s) eqn:Ha; [|reflexivity].
  rewrite (all_sep_endswith s Hne Ha) in He. discriminate.
Qed.

Lemma rstrip_sep_snoc s : endswith_sep s = false → rstrip_sep (s +:+ "/") = s.
Proof.
  induction s as [|c s IH]; [reflexivity|]. intros He.
  rewrite append_cons. cbn [rstrip_sep]. rewrite all_sep_app.
  destruct s as [|c' s].
  - cbn in He. unfold is_sep. rewrite He. reflexivity.
  - rewrite endswith_sep_cons in He by done.
    rewrite (not_all_sep (String c' s)) by done.
    rewrite andb_false_l, andb_false_r. by rewrite IH.
Qed.

Lemma trim_head_snoc s : s ≠ "" → endswith_sep s = false → trim_head (s +:+ "/") = s.
Proof.
  intros Hne He. unfold trim_head.
  assert (String.eqb (s +:+ "/") "" = false) as ->.
  { apply String.eqb_neq, append_sep_nonempty. }
  rewrite all_sep_app, (not_all_sep s) by done. simpl.
  by apply rstrip_sep_snoc.
Qed.

Lemma has_sep_app_sep s t : has_sep (s +:+ "/" +:+ t) = true.
Proof.
  induction s as [|c s IH]; [reflexivity|].
  rewrite append_cons. cbn [has_sep]. by rewrite IH, orb_true_r.
Qed.

Lemma cut_last_sep_app s t :
  has_sep t = false → cut_last_sep (s +:+ "/" +:+ t) = (s +:+ "/", t).
Proof.
  intros Ht. induction s as [|c s IH].
  - change ("" +:+ "/" +:+ t) with (String "/" t). cbn [cut_last_sep].
    by rewrite Ht.
  - rewrite append_cons. cbn [cut_last_sep].
    by rewrite has_sep_app_sep, IH.
Qed.

(** [os.path.split] cuts a path at its last separator and drops it. *)
Lemma split_app s t :
  s ≠ "" → endswith_sep s = false → has_sep t = false →
  split (s +:+ "/" +:+ t) = (s, t).
Proof.
  intros Hne He Ht. unfold split.
  rewrite cut_last_sep_app by done. cbn [fst snd].
  by rewrite trim_head_snoc.
Qed.

(** X14.  With the package module at [root/pkg/file], the default
    annotation directory is [root/annotations/]: a sibling of the package
    directory, not a directory inside it.  As it ends in a separator, the
    index files of a default run are that path followed by [genes.db] and
    [exons.db]. *)
Theorem default_annotations_beside_package root pkg file :
  root ≠ "" → endswith_sep root = false →
  pkg ≠ "" → has_sep pkg = false →
  has_sep file = false →
  default_annotations (root +:+ "/" +:+ pkg +:+ "/" +:+ file) = root +:+ "/annotations/"
  ∧ path_join (default_annotations (root +:+ "/" +:+ pkg +:+ "/" +:+ file)) "genes.db"
    = root +:+ "/annotations/genes.db"
  ∧ path_join (default_annotations (root +:+ "/" +:+ pkg +:+ "/" +:+ file)) "exons.db"
    = root +:+ "/annotations/exons.db".
Proof.
  intros Hroot Hre Hpkg Hps Hfs.
  assert (default_annotations (root +:+ "/" +:+ pkg +:+ "/" +:+ file)
          = root +:+ "/annotations/") as Hdef.
  { unfold default_annotations, dirname.
    replace (root +:+ "/" +:+ pkg +:+ "/" +:+ file)
      with ((root +:+ "/" +:+ pkg) +:+ "/" +:+ file) by (by rewrite !append_assoc).
    rewrite cut_last_sep_app by done. cbn [fst].
    rewrite trim_head_snoc.
    - rewrite split_app by done. cbn [fst].
      rewrite path_join_relative by reflexivity.
      apply String.eqb_neq in Hroot. by rewrite Hroot, Hre.
    - by destruct root.
    - rewrite <- append_assoc, endswith_sep_app by done.
      by apply has_sep_endswith. }
  rewrite Hdef.
  assert (endswith_sep (root +:+ "/annotations/") = true) as Hend.
  { replace (root +:+ "/annotations/") with ((root +:+ "/annotations") +:+ "/")
      by (by rewrite append_assoc).
    apply endswith_sep_snoc. }
  split; [done|].
  rewrite !path_join_relative, Hend, orb_true_r, !append_assoc by reflexivity.
  done.
Qed.

Lemma default_annotations_beside_package_witness :
  default_annotations
    ("/usr/lib/python3/site-packages" +:+ "/" +:+ "genmod" +:+ "/" +:+ "__init__.py")
  = "/usr/lib/python3/site-packages" +:+ "/annotations/"
  ∧ path_join (default_annotations
                 ("/usr/lib/python3/site-packages" +:+ "/" +:+ "genmod" +:+ "/"
                  +:+ "__init__.py")) "genes.db"
    = "/usr/lib/python3/site-packages" +:+ "/annotations/genes.db"
  ∧ path_join (default_annotations
                 ("/usr/lib/python3/site-packages" +:+ "/" +:+ "genmod" +:+ "/"
                  +:+ "__init__.py")) "exons.db"
    = "/usr/lib/python3/site-packages" +:+ "/annotations/exons.db".
Proof.
  apply (default_annotations_beside_package "/usr/lib/python3/site-packages" "genmod"
           "__init__.py"); first [discriminate | reflexivity].
Defined.

End DefaultAnnotations.

(** ** Reading the header file back, lines 60-63 *)

Lemma concat_empty_cons x l : String.concat "" (x :: l) = x +:+ String.concat "" l.
Proof. destruct l; simpl; [by rewrite append_nil_r | reflexivity]. Qed.

Lemma split_newline_line l rest :
  has_newline l = false →
  split_newline (l +:+ newline +:+ rest) = l :: split_newline rest.
Proof.
  induction l as [|c l IH]; [reflexivity|]. cbn [has_newline].
  intros [Hc Hl]%orb_false_iff.
  rewrite append_cons. cbn [split_newline]. by rewrite Hc, IH.
Qed.

Lemma header_text_split lines :
  Forall (λ l, has_newline l = false) lines →
  split_newline (header_text lines) = lines ++ [""].
Proof.
  unfold header_text. induction 1 as [|l lines Hl _ IH]; [reflexivity|].
  rewrite fmap_cons, concat_empty_cons, append_assoc, split_newline_line by done.
  by rewrite IH.
Qed.

(** X15.  The file that [print_headers] writes reads back as the header:
    split at its newlines, its text is the lines of [head.print_header()]
    in order, followed by one empty piece for the newline that ends the
    last line - provided no header line has a newline inside. *)
Theorem header_file_reads_back env head path silent st :
  path ≠ "" →
  writable env path = true →
  Forall (λ l, has_newline l = false) (print_header env head) →
  ∃ text, files (print_headers env head (Some path) silent st).2 !! path = Some text
    ∧ split_newline text = print_header env head ++ [""].
Proof.
  intros Hpath Hw Hlines.
  assert (truthy (of_path (Some path)) = true) as Ht.
  { simpl. apply negb_true_iff. by apply String.eqb_neq. }
  unfold print_headers, write_file. rewrite Ht. simpl. rewrite Hw. simpl.
  eexists. split; [apply lookup_insert_eq|]. by apply header_text_split.
Qed.

Lemma header_file_reads_back_witness :
  ∃ text, files (print_headers Sample.good (add_metadata Sample.header ∅) (Some "out.vcf")
                   true (initial (<["out.vcf" := "old content"]> ∅))).2 !! "out.vcf"
          = Some text
    ∧ split_newline text = print_header Sample.good (add_metadata Sample.header ∅) ++ [""].
Proof.
  apply (header_file_reads_back Sample.good (add_metadata Sample.header ∅) "out.vcf" true
           (initial (<["out.vcf" := "old content"]> ∅))).
  - discriminate.
  - reflexivity.
  - apply (bool_decide_unpack _). vm_compute. exact I.
Defined.

(** ** The default annotation directory of a relative module path *)

Lemma cut_last_sep_no_sep s : PosixPath.has_sep s = false → PosixPath.cut_last_sep s = ("", s).
Proof.
  destruct s as [|c s]; [reflexivity|]. cbn [PosixPath.has_sep PosixPath.cut_last_sep].
  intros [Hc Hs]%orb_false_iff. by rewrite Hs, Hc.
Qed.

(** X16.  When the module path has no directory above the package, as for
    a package imported from the working directory ([pkg/file], or a bare
    [file]), the default annotation directory is the relative path
    [annotations/], resolved against wherever the script is run from. *)
Theorem default_annotations_relative pkg file :
  PosixPath.has_sep pkg = false →
  PosixPath.has_sep file = false →
  default_annotations file = "annotations/"
  ∧ (pkg ≠ "" → default_annotations (pkg +:+ "/" +:+ file) = "annotations/").
Proof.
  intros Hp Hf. split.
  - unfold default_annotations, PosixPath.dirname, PosixPath.split.
    rewrite (cut_last_sep_no_sep file Hf). reflexivity.
  - intros Hne. unfold default_annotations, PosixPath.dirname, PosixPath.split.
    rewrite cut_last_sep_app by done. cbn [fst].
    rewrite trim_head_snoc; [| done | by apply has_sep_endswith].
    rewrite (cut_last_sep_no_sep pkg Hp). reflexivity.
Qed.

Lemma default_annotations_relative_witness :
  default_annotations "__init__.py" = "annotations/"
  ∧ default_annotations ("genmod" +:+ "/" +:+ "__init__.py") = "annotations/".
Proof.
  destruct (default_annotations_relative "genmod" "__init__.py" eq_refl eq_refl)
    as [Hfile Hpkg].
  split; [exact Hfile|]. apply Hpkg. discriminate.
Defined.

(** ** Options that are absent *)

(** X17.  [add_metadata] reads its options with defaults: called without
    the keys [vep], [cadd_file], [cadd_1000g] and [thousand_g], whatever
    else it is given, it adds exactly ANN, Comp, GM and MS; and a score
    source given as the empty string counts as not given. *)
Theorem add_metadata_defaults head (kwargs : gmap string value) :
  kwargs !! "vep" = None →
  (kwargs !! "cadd_file" = None ∨ kwargs !! "cadd_file" = Some (VStr "")) →
  kwargs !! "cadd_1000g" = None →
  kwargs !! "thousand_g" = None →
  added (add_metadata head kwargs) = added head ++ [info_ANN; info_Comp; info_GM; info_MS].
Proof.
  intros Hvep Hcadd Hc2 Htg.
  destruct (add_metadata_added head kwargs) as [_ ->].
  unfold dict_get. rewrite Hvep, Hc2, Htg.
  by destruct Hcadd as [-> | ->].
Qed.

Lemma add_metadata_defaults_witness :
  added (add_metadata Sample.header (<["cadd_file" := VStr ""]> $ <["silent" := VBool true]> ∅))
  = added Sample.header ++ [info_ANN; info_Comp; info_GM; info_MS].
Proof.
  apply (add_metadata_defaults Sample.header
           (<["cadd_file" := VStr ""]> $ <["silent" := VBool true]> ∅));
    first [reflexivity | right; reflexivity].
Defined.
